(** * Persona chat: the request router over the session store and message log

    A shallow embedding of [server/routes.ts] (the Express handlers registered
    by [registerRoutes]) and of the persona filter of
    [client/src/components/sidebar.tsx], with the properties the design
    document states about them.

    Conventions.
    - A JavaScript string is a [string] of code units below 256 (the Latin-1
      range of UTF-16); [toLowerCase], [trim] and [parseInt] are given on
      that range.
    - A JavaScript number that stands for an identifier is an integer of [Z];
      [NaN] is a value of its own ([JNaN]).  The model is that of the engine
      on the safe integers (magnitude at most 2^53 - 1), see [isSafeInteger].
    - A handler is a computation over the [World]: the storage singleton and
      the record of calls made to the response generator.  An exception
      thrown inside [try { ... }] leaves the world as it was when thrown. *)

From Stdlib Require Import ZArith Ascii String List Bool Lia.
From stdpp Require Import base option list gmap strings.

Open Scope string_scope.
Open Scope Z_scope.
Open Scope list_scope.

(** ** JavaScript string primitives *)

Module Js.

(** Code unit of a character. *)
Definition code (c : ascii) : nat := nat_of_ascii c.

(** Upper-case letters of the range: A–Z, À–Ö and Ø–Þ. *)
Definition isUpper (c : ascii) : bool :=
  let n := code c in
  ((65 <=? n) && (n <=? 90) || (192 <=? n) && (n <=? 214)
   || (216 <=? n) && (n <=? 222))%nat.

Definition lowerChar (c : ascii) : ascii :=
  if isUpper c then ascii_of_nat (code c + 32) else c.

(** [String.prototype.toLowerCase]. *)
Fixpoint toLowerCase (s : string) : string :=
  match s with
  | EmptyString => EmptyString
  | String c s' => String (lowerChar c) (toLowerCase s')
  end.

(** [String.prototype.startsWith]. *)
Fixpoint startsWith (s q : string) {struct q} : bool :=
  match q, s with
  | EmptyString, _ => true
  | String _ _, EmptyString => false
  | String b q', String a s' => if ascii_dec a b then startsWith s' q' else false
  end.

(** [String.prototype.includes]: [q] occurs in [s] at some position. *)
Fixpoint includes (s q : string) : bool :=
  startsWith s q ||
  match s with
  | EmptyString => false
  | String _ s' => includes s' q
  end.

(** WhiteSpace and LineTerminator code units: TAB, LF, VT, FF, CR, SP, NBSP. *)
Definition isWhiteSpace (c : ascii) : bool :=
  let n := code c in
  ((9 <=? n) && (n <=? 13) || (n =? 32) || (n =? 160))%nat.

Fixpoint trimStart (s : string) : string :=
  match s with
  | EmptyString => EmptyString
  | String c s' => if isWhiteSpace c then trimStart s' else s
  end.

(** Drops the trailing white space of [s]. *)
Fixpoint trimEnd (s : string) : string :=
  match s with
  | EmptyString => EmptyString
  | String c s' =>
      match trimEnd s' with
      | EmptyString => if isWhiteSpace c then EmptyString else String c EmptyString
      | t => String c t
      end
  end.

(** [String.prototype.trim]. *)
Definition trim (s : string) : string := trimEnd (trimStart s).

(** Every character of [s] is white space ([s] may be empty). *)
Fixpoint allWhiteSpace (s : string) : bool :=
  match s with
  | EmptyString => true
  | String c s' => isWhiteSpace c && allWhiteSpace s'
  end.

(** Value of a digit in the given radix, if it is one. *)
Definition digitValue (radix : Z) (c : ascii) : option Z :=
  let n := Z.of_nat (code c) in
  let v := if (48 <=? n) && (n <=? 57) then Some (n - 48)
           else if (97 <=? n) && (n <=? 102) then Some (n - 87)
           else if (65 <=? n) && (n <=? 70) then Some (n - 55)
           else None in
  match v with
  | Some d => if d <? radix then Some d else None
  | None => None
  end.

(** Reads the longest run of digits; [acc] is [None] until a digit is read. *)
Fixpoint readDigits (radix : Z) (acc : option Z) (s : string) : option Z :=
  match s with
  | EmptyString => acc
  | String c s' =>
      match digitValue radix c with
      | Some d => readDigits radix (Some (default 0 acc * radix + d)) s'
      | None => acc
      end
  end.

Definition readUnsigned (s : string) : option Z :=
  match s with
  | String "0" (String "x" s') | String "0" (String "X" s') => readDigits 16 None s'
  | _ => readDigits 10 None s
  end.

(** [parseInt(s)] with no radix argument; [None] is [NaN].  The result is
    the exact integer the numeral denotes: it is the number the engine
    returns when that integer is a safe one (magnitude at most 2^53 - 1);
    beyond, the engine rounds to a double, and to [Infinity] for the longest
    numerals, which is not modelled. *)
Definition parseInt (s : string) : option Z :=
  match trimStart s with
  | String "-" s' => Z.opp <$> readUnsigned s'
  | String "+" s' => readUnsigned s'
  | s' => readUnsigned s'
  end.

End Js.

(** ** JavaScript values of a request *)

(** What a field of [req.body] holds, at the types the client sends: nothing,
    a number or a string; [NaN] is what [parseInt] makes of a string that is
    no numeral.  A number is an integer; the other values of JSON ([null],
    booleans, arrays, objects, numbers with a fraction) are not modelled. *)
Inductive JsValue :=
| JUndefined
| JNaN
| JNumber (n : Z)
| JString (s : string).

(** Truthiness ([!v] is its negation). *)
Definition truthy (v : JsValue) : bool :=
  match v with
  | JUndefined | JNaN => false
  | JNumber n => negb (n =? 0)
  | JString s => negb (s =? "")%string
  end.

(** [parseInt(s)] as a JavaScript value. *)
Definition parseIntValue (s : string) : JsValue :=
  match Js.parseInt s with
  | Some n => JNumber n
  | None => JNaN
  end.

(** [parseInt(v.toString())] for a truthy [v]: the decimal numeral of a
    number reads back as that number.  This is so of the safe integers (and
    of every number below 10^21 in magnitude); a larger number prints in
    exponent form, of which [parseInt] reads the leading digit, which is not
    modelled. *)
Definition parseIntOfToString (v : JsValue) : JsValue :=
  match v with
  | JNumber n => JNumber n
  | JString s => parseIntValue s
  | JNaN | JUndefined => JNaN
  end.

(** ** Data model *)

Inductive Role := user | assistant | system.

Definition Role_eqb (a b : Role) : bool :=
  match a, b with
  | user, user | assistant, assistant | system, system => true
  | _, _ => false
  end.

Record Persona := {
  id : Z;
  name : string;
  lifespan : string;
  category : string;
  description : string;
  imageUrl : string
}.

Record ChatSession := {
  sessionId : string;
  currentPersonaId : option Z;
  createdAt : Z
}.

Record InsertChatSession := {
  new_sessionId : string;
  new_currentPersonaId : option Z
}.

Record InsertMessage := {
  ins_sessionId : string;
  ins_role : Role;
  ins_content : string;
  ins_personaId : Z
}.

Record Message := {
  msg_id : Z;
  msg_sessionId : string;
  role : Role;
  content : string;
  personaId : Z;
  timestamp : Z
}.

(** The storage singleton: the persona catalog, the session store and the
    message log (in append order, all sessions together). *)
Record Store := {
  personas : list Persona;
  chatSessions : gmap string ChatSession;
  messages : list Message;
  currentMessageId : Z
}.

(** One call of [generatePersonaResponse]: persona, prior conversation and
    the new user text. *)
Record GeneratorCall := {
  call_persona : Persona;
  call_history : list (Role * string);
  call_text : string
}.

Record World := {
  storage : Store;
  generatorCalls : list GeneratorCall
}.

(** ** Exceptions and handler computations *)

(** A thrown value, as the catch blocks tell them apart:
    [error instanceof z.ZodError], then [error.message]. *)
Inductive exn :=
| ZodError
| Error (message : string).

Inductive completion (A : Type) :=
| Normal (a : A)
| Thrown (e : exn).
Arguments Normal {A} a.
Arguments Thrown {A} e.

Definition M (A : Type) : Type := World -> completion A * World.

Definition ret {A} (a : A) : M A := fun w => (Normal a, w).

Definition bind {A B} (m : M A) (k : A -> M B) : M B :=
  fun w =>
    match m w with
    | (Normal a, w') => k a w'
    | (Thrown e, w') => (Thrown e, w')
    end.

Notation "'await' x <- m ; k" := (bind m (fun x => k))
  (at level 10, x name, m at level 100, k at level 200).

(** A value or exception that does not touch the world. *)
Definition lift {A} (c : completion A) : M A := fun w => (c, w).

(** A storage read. *)
Definition readStore {A} (f : Store -> A) : M A :=
  fun w => (Normal (f (storage w)), w).

(** A storage write; a write that throws leaves the storage as it was. *)
Definition callStore {A} (f : Store -> completion (A * Store)) : M A :=
  fun w =>
    match f (storage w) with
    | Normal (a, st) => (Normal a, {| storage := st; generatorCalls := generatorCalls w |})
    | Thrown e => (Thrown e, w)
    end.

(** ** HTTP responses *)

Inductive Body :=
| JsonPersonas (ps : list Persona)
| JsonPersona (p : Persona)
| JsonSession (s : ChatSession)
| JsonMessages (ms : list Message)
| JsonExchange (userMessage assistantMessage : Message)
| JsonError (message : string)
| JsonZodError (message : string)
| NoBody.

Record Response := {
  status : Z;
  body : Body
}.

(** [res.json(b)]. *)
Definition json (b : Body) : Response := {| status := 200; body := b |}.

(** [res.status(n).json(b)]. *)
Definition statusJson (n : Z) (b : Body) : Response := {| status := n; body := b |}.

(** [try { m } catch (error) { handler }] around a whole route: the catch
    block only builds a response. *)
Definition tryCatch (m : M Response) (handler : exn -> Response) : World -> Response * World :=
  fun w =>
    match m w with
    | (Normal r, w') => (r, w')
    | (Thrown e, w') => (handler e, w')
    end.

(** The error taxonomy of the design document, by status. *)
Inductive ErrorKind :=
| ValidationError
| NotFoundError
| GeneratorUnavailable
| InternalError.

Definition kindOfStatus (n : Z) : option ErrorKind :=
  if n =? 400 then Some ValidationError
  else if n =? 404 then Some NotFoundError
  else if n =? 503 then Some GeneratorUnavailable
  else if n =? 500 then Some InternalError
  else None.

(** ** Schemas of [@shared/schema] *)

(** Modelled from the spec: the schema declarations of [@shared/schema] are
    not in src/.  By the data model a session's identity is a string token
    and its persona reference an optional number; a record of another shape
    is malformed and [parse] throws a [ZodError]. *)
Definition insertChatSessionSchema_parse (sessionId currentPersonaId : JsValue)
  : completion InsertChatSession :=
  match sessionId, currentPersonaId with
  | JString s, JUndefined => Normal {| new_sessionId := s; new_currentPersonaId := None |}
  | JString s, JNumber n => Normal {| new_sessionId := s; new_currentPersonaId := Some n |}
  | _, _ => Thrown ZodError
  end.

(** Modelled from the spec: the schema declarations of [@shared/schema] are
    not in src/.  A record with a session token, a role of the three, a text
    and a numeric persona reference has the shape of the data model's
    Message, and [parse] returns it. *)
Definition insertMessageSchema_parse (m : InsertMessage) : completion InsertMessage :=
  Normal m.

(** ** Storage ([./storage]) *)

Section Storage.

(** What the storage throws for the two failures of its contract. *)
Variable validationError notFoundError : exn.

(** Modelled from the spec: [./storage] is not in src/.  [list() -> all
    personas]. *)
Definition getPersonas (st : Store) : list Persona := personas st.

(** Modelled from the spec: [./storage] is not in src/.
    [listByCategory(category) -> subset]. *)
Definition getPersonasByCategory (category' : string) (st : Store) : list Persona :=
  List.filter (fun p => (category p =? category')%string) (personas st).

(** Modelled from the spec: [./storage] is not in src/.  [search(query) ->
    subset whose name or description contains query, case-insensitively]. *)
Definition searchPersonas (query : string) (st : Store) : list Persona :=
  List.filter
    (fun p =>
       Js.includes (Js.toLowerCase (name p)) (Js.toLowerCase query)
       || Js.includes (Js.toLowerCase (description p)) (Js.toLowerCase query))
    (personas st).

(** Modelled from the spec: [./storage] is not in src/.
    [getById(id) -> Persona | not-found]. *)
Definition getPersonaById (id' : Z) (st : Store) : option Persona :=
  List.find (fun p => id p =? id') (personas st).

(** Modelled from the spec: [./storage] is not in src/.
    [getSession(id) -> Session | not-found]. *)
Definition getChatSessionById (sessionId' : string) (st : Store) : option ChatSession :=
  chatSessions st !! sessionId'.

(** Modelled from the spec: [./storage] is not in src/.  The session store
    binds the identifier to the optional persona; creating with an
    identifier that already exists returns the existing session unchanged. *)
Definition createChatSession (now : Z) (data : InsertChatSession) (st : Store)
  : completion (ChatSession * Store) :=
  match chatSessions st !! new_sessionId data with
  | Some existing => Normal (existing, st)
  | None =>
      let session := {| sessionId := new_sessionId data;
                        currentPersonaId := new_currentPersonaId data;
                        createdAt := now |} in
      Normal (session,
              {| personas := personas st;
                 chatSessions := <[new_sessionId data := session]> (chatSessions st);
                 messages := messages st;
                 currentMessageId := currentMessageId st |})
  end.

(** Modelled from the spec: [./storage] is not in src/.
    [setSessionPersona(id, personaId) -> Session]: fails with
    [NotFoundError] if session or persona does not exist; it does not itself
    write the system message. *)
Definition updateChatSessionPersona (sessionId' : string) (personaId' : Z) (st : Store)
  : completion (ChatSession * Store) :=
  match chatSessions st !! sessionId', getPersonaById personaId' st with
  | Some session, Some _ =>
      let updated := {| sessionId := sessionId session;
                        currentPersonaId := Some personaId';
                        createdAt := createdAt session |} in
      Normal (updated,
              {| personas := personas st;
                 chatSessions := <[sessionId' := updated]> (chatSessions st);
                 messages := messages st;
                 currentMessageId := currentMessageId st |})
  | _, _ => Thrown notFoundError
  end.

(** The message the log stores for an insertion: the next identity and the
    time of the append. *)
Definition messageOf (now : Z) (m : InsertMessage) (st : Store) : Message :=
  {| msg_id := currentMessageId st;
     msg_sessionId := ins_sessionId m;
     role := ins_role m;
     content := ins_content m;
     personaId := ins_personaId m;
     timestamp := now |}.

(** The storage with one more message at the end of the log. *)
Definition withMessage (message : Message) (st : Store) : Store :=
  {| personas := personas st;
     chatSessions := chatSessions st;
     messages := messages st ++ [message];
     currentMessageId := currentMessageId st + 1 |}.

(** Modelled from the spec: [./storage] is not in src/.
    [append(sessionId, role, content, personaId) -> Message]: fails with
    [ValidationError] if content is empty/whitespace-only or session does not
    exist; message identities are sequential. *)
Definition createMessage (now : Z) (m : InsertMessage) (st : Store)
  : completion (Message * Store) :=
  if Js.allWhiteSpace (ins_content m) then Thrown validationError
  else
    match chatSessions st !! ins_sessionId m with
    | None => Thrown validationError
    | Some _ =>
        let message := messageOf now m st in
        Normal (message, withMessage message st)
    end.

(** Modelled from the spec: [./storage] is not in src/.
    [listBySession(sessionId) -> ordered sequence of Message], in the order
    they were appended; empty if the session has no messages. *)
Definition getMessagesBySessionId (sessionId' : string) (st : Store) : list Message :=
  List.filter (fun m => (msg_sessionId m =? sessionId')%string) (messages st).

End Storage.

(** ** Client: the persona filter of the sidebar *)

(** [matchesSearch] of [filteredPersonas] (sidebar.tsx). *)
Definition matchesSearch (searchQuery : string) (persona : Persona) : bool :=
  (searchQuery =? "")%string
  || Js.includes (Js.toLowerCase (name persona)) (Js.toLowerCase searchQuery)
  || Js.includes (Js.toLowerCase (description persona)) (Js.toLowerCase searchQuery).

(** [matchesCategory] of [filteredPersonas] (sidebar.tsx). *)
Definition matchesCategory (selectedCategory : string) (persona : Persona) : bool :=
  (selectedCategory =? "All")%string || (category persona =? selectedCategory)%string.

Definition filteredPersonas (personas' : list Persona) (searchQuery selectedCategory : string)
  : list Persona :=
  List.filter
    (fun persona => matchesSearch searchQuery persona && matchesCategory selectedCategory persona)
    personas'.

(** ** Server: the routes of [registerRoutes] *)

(** What a request reads from outside the storage: the token [nanoid()]
    returns and the clock at each message or session creation. *)
Record Env := {
  nanoid : string;
  now : Z;
  later : Z
}.

Inductive Request :=
| GetPersonas
| GetPersonasByCategory (category' : string)
| SearchPersonas (q : option string)
| GetPersona (id' : string)
| PostSession (sessionId' personaId' : JsValue)
| PatchSessionPersona (sessionId' : string) (personaId' : JsValue)
| GetMessages (sessionId' : string)
| PostMessage (sessionId' : string) (content' : JsValue)
| DeleteMessages (sessionId' : string).

Section Router.

Variable validationError notFoundError : exn.

(** [generatePersonaResponse] of [./lib/openai] (not in src/): the reply
    text, or what the call throws. *)
Variable generatePersonaResponse : Persona -> list (Role * string) -> string -> completion string.

(** Modelled from the spec: [./lib/openai] is not in src/.  A failed
    generator call surfaces as one distinct error kind; the router recognises
    it by this message (routes.ts, line 270). *)
Definition generatorFailure : exn := Error "Failed to generate response from OpenAI API".

(** The call of the generator, recorded in the world. *)
Definition callGenerator (persona : Persona) (history : list (Role * string)) (text : string)
  : M string :=
  fun w =>
    (generatePersonaResponse persona history text,
     {| storage := storage w;
        generatorCalls := generatorCalls w ++
          [{| call_persona := persona; call_history := history; call_text := text |}] |}).

Definition internalError (message : string) : exn -> Response :=
  fun _ => statusJson 500 (JsonError message).

(** GET /api/personas *)
Definition get_personas : World -> Response * World :=
  tryCatch
    (await personas' <- readStore getPersonas;
     ret (json (JsonPersonas personas')))
    (internalError "Failed to fetch personas").

(** GET /api/personas/category/:category *)
Definition get_personas_by_category (category' : string) : World -> Response * World :=
  tryCatch
    (await personas' <- readStore (getPersonasByCategory category');
     ret (json (JsonPersonas personas')))
    (internalError "Failed to fetch personas by category").

(** GET /api/personas/search *)
Definition get_personas_search (q : option string) : World -> Response * World :=
  tryCatch
    (let query := default "" q in
     if (query =? "")%string then
       await allPersonas <- readStore getPersonas;
       ret (json (JsonPersonas allPersonas))
     else
       await personas' <- readStore (searchPersonas query);
       ret (json (JsonPersonas personas')))
    (internalError "Failed to search personas").

(** GET /api/personas/:id *)
Definition get_persona (id' : string) : World -> Response * World :=
  tryCatch
    (match Js.parseInt id' with
     | None => ret (statusJson 400 (JsonError "Invalid persona ID"))
     | Some n =>
         await persona <- readStore (getPersonaById n);
         match persona with
         | None => ret (statusJson 404 (JsonError "Persona not found"))
         | Some persona => ret (json (JsonPersona persona))
         end
     end)
    (internalError "Failed to fetch persona").

(** [personaId = parseInt(personaId)] when it is a non-empty string. *)
Definition coercePersonaId (personaId' : JsValue) : JsValue :=
  match personaId' with
  | JString s => if truthy personaId' then parseIntValue s else personaId'
  | _ => personaId'
  end.

(** [v || undefined]. *)
Definition orUndefined (v : JsValue) : JsValue :=
  if truthy v then v else JUndefined.

(** [cur !== n] for the stored persona reference and a number. *)
Definition differsFrom (cur : option Z) (n : Z) : bool :=
  match cur with
  | Some c => negb (c =? n)
  | None => true
  end.

(** The creation of a session, as both creating branches of POST
    /api/sessions do it: [sessionData] is validated and stored, and the new
    session is returned with 201. *)
Definition createNewSession (env : Env) (sessionId' personaId' : JsValue) : M Response :=
  await validatedData <-
    lift (insertChatSessionSchema_parse sessionId' (orUndefined personaId'));
  await newSession <- callStore (createChatSession (now env) validatedData);
  ret (statusJson 201 (JsonSession newSession)).

(** POST /api/sessions.  A session is looked up by a string token only: a
    truthy [sessionId] that is not a string finds none. *)
Definition post_sessions (env : Env) (sessionId' personaId' : JsValue)
  : World -> Response * World :=
  tryCatch
    (let personaId' := coercePersonaId personaId' in
     if negb (truthy sessionId') then createNewSession env (JString (nanoid env)) personaId'
     else
       await existingSession <-
         readStore (match sessionId' with
                    | JString s => getChatSessionById s
                    | _ => fun _ => None
                    end);
       match existingSession, sessionId', personaId' with
       | Some existing, JString s, JNumber n =>
           if truthy personaId' && differsFrom (currentPersonaId existing) n then
             await updatedSession <- callStore (updateChatSessionPersona notFoundError s n);
             ret (json (JsonSession updatedSession))
           else ret (json (JsonSession existing))
       | Some existing, _, _ => ret (json (JsonSession existing))
       | None, _, _ => createNewSession env sessionId' personaId'
       end)
    (fun error =>
       match error with
       | ZodError => statusJson 400 (JsonZodError "Invalid session data")
       | _ => statusJson 500 (JsonError "Failed to create or get chat session")
       end).

(** The text of the system message of a persona change. *)
Definition personaChangeNotice (persona : Persona) : string :=
  "You are now chatting with " +:+ name persona +:+ ".".

(** PATCH /api/sessions/:sessionId/persona *)
Definition patch_session_persona (env : Env) (sessionId' : string) (personaId' : JsValue)
  : World -> Response * World :=
  tryCatch
    (match (if truthy personaId' then parseIntOfToString personaId' else JNaN) with
     | JNumber parsedPersonaId =>
         await persona <- readStore (getPersonaById parsedPersonaId);
         match persona with
         | None => ret (statusJson 404 (JsonError "Persona not found"))
         | Some persona =>
             await session <- readStore (getChatSessionById sessionId');
             match session with
             | None => ret (statusJson 404 (JsonError "Chat session not found"))
             | Some _ =>
                 await updatedSession <-
                   callStore (updateChatSessionPersona notFoundError sessionId' parsedPersonaId);
                 await _ <-
                   callStore (createMessage validationError (now env)
                                {| ins_sessionId := sessionId';
                                   ins_role := system;
                                   ins_content := personaChangeNotice persona;
                                   ins_personaId := parsedPersonaId |});
                 ret (json (JsonSession updatedSession))
             end
         end
     | _ => ret (statusJson 400 (JsonError "Invalid persona ID"))
     end)
    (internalError "Failed to change persona").

(** GET /api/sessions/:sessionId/messages *)
Definition get_session_messages (sessionId' : string) : World -> Response * World :=
  tryCatch
    (await session <- readStore (getChatSessionById sessionId');
     match session with
     | None => ret (statusJson 404 (JsonError "Chat session not found"))
     | Some _ =>
         await messages' <- readStore (getMessagesBySessionId sessionId');
         ret (json (JsonMessages messages'))
     end)
    (internalError "Failed to fetch messages").

(** [!content || typeof content !== "string" || content.trim() === ""]:
    the text of an acceptable content, if it is one. *)
Definition acceptableContent (content' : JsValue) : option string :=
  match content' with
  | JString s =>
      if negb (truthy content') || (Js.trim s =? "")%string then None else Some s
  | _ => None
  end.

(** [!session.currentPersonaId]: the selected persona, if one is. *)
Definition selectedPersona (session : ChatSession) : option Z :=
  match currentPersonaId session with
  | Some n => if n =? 0 then None else Some n
  | None => None
  end.

(** The messages of the log as the generator takes them: system messages
    excluded, each as its role and content. *)
Definition conversationHistory (allMessages : list Message) : list (Role * string) :=
  map (fun msg => (role msg, content msg))
      (List.filter (fun msg => negb (Role_eqb (role msg) system)) allMessages).

(** The catch block of the send-message route. *)
Definition sendMessageError (error : exn) : Response :=
  match error with
  | ZodError => statusJson 400 (JsonZodError "Invalid message data")
  | Error message =>
      if (message =? "Failed to generate response from OpenAI API")%string then
        statusJson 503
          (JsonError "Unable to generate response from AI service. Please try again later.")
      else statusJson 500 (JsonError "Failed to process message")
  end.

(** POST /api/sessions/:sessionId/messages *)
Definition post_session_messages (env : Env) (sessionId' : string) (content' : JsValue)
  : World -> Response * World :=
  tryCatch
    (match acceptableContent content' with
     | None => ret (statusJson 400 (JsonError "Message content is required"))
     | Some text =>
         await session <- readStore (getChatSessionById sessionId');
         match session with
         | None => ret (statusJson 404 (JsonError "Chat session not found"))
         | Some session =>
             match selectedPersona session with
             | None =>
                 ret (statusJson 400 (JsonError "No persona selected for this chat session"))
             | Some personaId' =>
                 await persona <- readStore (getPersonaById personaId');
                 match persona with
                 | None => ret (statusJson 404 (JsonError "Persona not found"))
                 | Some persona =>
                     await validatedUserMessage <-
                       lift (insertMessageSchema_parse
                               {| ins_sessionId := sessionId';
                                  ins_role := user;
                                  ins_content := text;
                                  ins_personaId := personaId' |});
                     await savedUserMessage <-
                       callStore (createMessage validationError (now env) validatedUserMessage);
                     await allMessages <- readStore (getMessagesBySessionId sessionId');
                     await aiResponse <-
                       callGenerator persona (removelast (conversationHistory allMessages)) text;
                     await validatedAssistantMessage <-
                       lift (insertMessageSchema_parse
                               {| ins_sessionId := sessionId';
                                  ins_role := assistant;
                                  ins_content := aiResponse;
                                  ins_personaId := personaId' |});
                     await savedAssistantMessage <-
                       callStore (createMessage validationError (later env)
                                    validatedAssistantMessage);
                     ret (statusJson 201 (JsonExchange savedUserMessage savedAssistantMessage))
                 end
             end
         end
     end)
    sendMessageError.

(** DELETE /api/sessions/:sessionId/messages: responds that it was
    successful; the storage is not called. *)
Definition delete_session_messages (sessionId' : string) : World -> Response * World :=
  fun w => ({| status := 204; body := NoBody |}, w).

(** The router. *)
Definition handle (env : Env) (r : Request) : World -> Response * World :=
  match r with
  | GetPersonas => get_personas
  | GetPersonasByCategory c => get_personas_by_category c
  | SearchPersonas q => get_personas_search q
  | GetPersona i => get_persona i
  | PostSession s p => post_sessions env s p
  | PatchSessionPersona s p => patch_session_persona env s p
  | GetMessages s => get_session_messages s
  | PostMessage s c => post_session_messages env s c
  | DeleteMessages s => delete_session_messages s
  end.

End Router.

(** ** The properties in the words of the design document *)

(** Two characters are the same up to case: equal, or one is an upper-case
    letter and the other its lower-case form (32 code units above). *)
Definition sameLetter (a b : ascii) : Prop :=
  a = b
  \/ (Js.isUpper a = true /\ Js.code b = (Js.code a + 32)%nat)
  \/ (Js.isUpper b = true /\ Js.code a = (Js.code b + 32)%nat).

(** Two strings are equal, case-insensitively. *)
Inductive equalIgnoringCase : string -> string -> Prop :=
| eic_empty : equalIgnoringCase "" ""
| eic_char a b s t :
    sameLetter a b -> equalIgnoringCase s t ->
    equalIgnoringCase (String a s) (String b t).

(** [s] contains [q], case-insensitively: some substring of [s] equals [q]
    up to case. *)
Definition containsIgnoringCase (s q : string) : Prop :=
  exists pre mid post, s = pre +:+ mid +:+ post /\ equalIgnoringCase mid q.

(** The persona's name or description contains the query,
    case-insensitively. *)
Definition matchesQuery (query : string) (p : Persona) : Prop :=
  containsIgnoringCase (name p) query \/ containsIgnoringCase (description p) query.

(** The message log of one session. *)
Definition logOf (sessionId' : string) (w : World) : list Message :=
  getMessagesBySessionId sessionId' (storage w).

(** A session's persona reference, when present, names an existing
    persona. *)
Definition personaRefsValid (st : Store) : Prop :=
  forall sid session n,
    chatSessions st !! sid = Some session ->
    currentPersonaId session = Some n ->
    is_Some (getPersonaById n st).

(** The content of a send-message request is empty, whitespace-only or
    missing. *)
Inductive blankContent : JsValue -> Prop :=
| blank_missing : blankContent JUndefined
| blank_empty : blankContent (JString "")
| blank_spaces s : Js.allWhiteSpace s = true -> blankContent (JString s).

(** The user message the send-message route persists. *)
Definition userMessage (env : Env) (sid text : string) (pid : Z) (w : World) : Message :=
  messageOf (now env)
    {| ins_sessionId := sid; ins_role := user; ins_content := text; ins_personaId := pid |}
    (storage w).

(** A message as the generator takes it. *)
Definition roleAndContent (m : Message) : Role * string := (role m, content m).

(** ** A small catalog and some worlds to run the routes on *)

Definition curie : Persona :=
  {| id := 1; name := "Marie Curie"; lifespan := "1867-1934"; category := "Science";
     description := "Pioneer of research on radioactivity"; imageUrl := "/curie.png" |}.

Definition caesar : Persona :=
  {| id := 2; name := "Julius Caesar"; lifespan := "100-44 BC"; category := "Politics";
     description := "Roman general and statesman"; imageUrl := "/caesar.png" |}.

Definition demoEnv : Env := {| nanoid := "V1StGXR8_Z5jdHi6B-myT"; now := 1000; later := 1005 |}.

Definition worldOf (st : Store) : World := {| storage := st; generatorCalls := [] |}.

(** No session yet. *)
Definition emptyWorld : World :=
  worldOf {| personas := [curie; caesar]; chatSessions := ∅; messages := [];
             currentMessageId := 1 |}.

Definition curieSession : ChatSession :=
  {| sessionId := "s1"; currentPersonaId := Some 1; createdAt := 900 |}.

(** Session [s1] is bound to Marie Curie and has no messages. *)
Definition boundWorld : World :=
  worldOf {| personas := [curie; caesar]; chatSessions := {[ "s1" := curieSession ]};
             messages := []; currentMessageId := 1 |}.

Definition greeting : Message :=
  {| msg_id := 1; msg_sessionId := "s1"; role := user; content := "Hello";
     personaId := 1; timestamp := 950 |}.

Definition notice : Message :=
  {| msg_id := 1; msg_sessionId := "s1"; role := system;
     content := "You are now chatting with Marie Curie."; personaId := 1; timestamp := 950 |}.

(** Session [s1] with one user message in its log. *)
Definition greetedWorld : World :=
  worldOf {| personas := [curie; caesar]; chatSessions := {[ "s1" := curieSession ]};
             messages := [greeting]; currentMessageId := 2 |}.

(** Session [s1] with the system message of a persona change in its log. *)
Definition noticedWorld : World :=
  worldOf {| personas := [curie; caesar]; chatSessions := {[ "s1" := curieSession ]};
             messages := [notice]; currentMessageId := 2 |}.

(** What the storage of the runs below throws. *)
Definition demoValidationError : exn := Error "Invalid message".

Definition demoNotFoundError : exn := Error "Not found".

(** A generator that is down, and one that answers. *)
Definition failingGenerator : Persona -> list (Role * string) -> string -> completion string :=
  fun _ _ _ => Thrown generatorFailure.

Definition echoGenerator : Persona -> list (Role * string) -> string -> completion string :=
  fun persona _ text => Normal (name persona +:+ " heard: " +:+ text).

(** The persona id a create-session call binds a new session to, if any,
    names a persona of the catalog. *)
Definition bindsKnownPersona (v : JsValue) (st : Store) : Prop :=
  match orUndefined (coercePersonaId v) with
  | JNumber n => is_Some (getPersonaById n st)
  | _ => True
  end.

(** ** Client: the persona list of the sidebar *)




(** The height class of [sidebarClass]. *)
Definition sidebarHeight (isMobile isOpen : bool) : string :=
  if isMobile then (if isOpen then "h-screen absolute top-0 left-0" else "h-20") else "h-full".

(** The session whose log a request may write. *)
Definition addressedSession (r : Request) : option string :=
  match r with
  | PatchSessionPersona s _ | PostMessage s _ => Some s
  | _ => None
  end.


(** Every message of the log belongs to a session of the store. *)
Definition messagesHaveSessions (st : Store) : Prop :=
  forall m, In m (messages st) -> is_Some (chatSessions st !! msg_sessionId m).

(** The persona id a persona-change request carries, if it carries one: a
    number other than zero, or a non-empty string that [parseInt] reads as a
    number. *)
Definition requestedPersona (v : JsValue) : option Z :=
  match v with
  | JNumber n => if n =? 0 then None else Some n
  | JString s => if (s =? "")%string then None else Js.parseInt s
  | JUndefined | JNaN => None
  end.

(** A decimal digit, 0 to 9. *)
Definition isDecimalDigit (c : ascii) : bool :=
  match Js.digitValue 10 c with
  | Some _ => true
  | None => false
  end.

Fixpoint allDecimalDigits (s : string) : bool :=
  match s with
  | EmptyString => true
  | String c s' => isDecimalDigit c && allDecimalDigits s'
  end.

(** A catalog whose first persona has the id 0, and a session without
    persona. *)
Definition anonymous : Persona :=
  {| id := 0; name := "Anonymous"; lifespan := "unknown"; category := "Philosophy";
     description := "An author whose name is lost"; imageUrl := "/anonymous.png" |}.

Definition zeroWorld : World :=
  worldOf {| personas := [anonymous; curie];
             chatSessions := {[ "s1" := {| sessionId := "s1"; currentPersonaId := None;
                                           createdAt := 900 |} ]};
             messages := []; currentMessageId := 1 |}.

(** [Number.MAX_SAFE_INTEGER], 2^53 - 1. *)
Definition MAX_SAFE_INTEGER : Z := 9007199254740991.

(** An integer that a JavaScript number holds exactly: [parseInt] returns it
    unrounded and [toString] prints it as its decimal numeral. *)
Definition isSafeInteger (n : Z) : Prop := Z.abs n <= MAX_SAFE_INTEGER.

(** The personaId of a request is read within the safe integers: a number
    is a safe integer, and so is the number [parseInt] reads from a string. *)
Definition safePersonaId (v : JsValue) : Prop :=
  match v with
  | JNumber n => isSafeInteger n
  | JString s =>
      match Js.parseInt s with
      | Some n => isSafeInteger n
      | None => True
      end
  | JUndefined | JNaN => True
  end.

(** The id of a path is read within the safe integers. *)
Definition safePathId (i : string) : Prop :=
  match Js.parseInt i with
  | Some n => isSafeInteger n
  | None => True
  end.

(** * Properties *)

(** ** JavaScript strings *)

Example parseInt_dec : Js.parseInt "  42abc" = Some 42.
Proof. reflexivity. Qed.

Example parseInt_hex : Js.parseInt "-0x1F" = Some (-31).
Proof. reflexivity. Qed.

Example parseInt_nan : Js.parseInt "abc" = None.
Proof. reflexivity. Qed.

Example parseInt_bare_prefix : Js.parseInt "0x" = None.
Proof. reflexivity. Qed.

Example trim_ex : Js.trim "  a b  " = "a b".
Proof. reflexivity. Qed.

Example includes_ex :
  Js.includes (Js.toLowerCase "Marie CURIE") (Js.toLowerCase "cur") = true.
Proof. reflexivity. Qed.

Lemma code_inj a b : Js.code a = Js.code b -> a = b.
Proof.
  unfold Js.code. intros H.
  rewrite <- (ascii_nat_embedding a), <- (ascii_nat_embedding b). now rewrite H.
Qed.

Lemma isUpper_range c :
  Js.isUpper c = true ->
  (65 <= Js.code c <= 90 \/ 192 <= Js.code c <= 214 \/ 216 <= Js.code c <= 222)%nat.
Proof.
  unfold Js.isUpper. cbv zeta.
  rewrite !orb_true_iff, !andb_true_iff, !Nat.leb_le. lia.
Qed.

Lemma code_lowerChar_upper c :
  Js.isUpper c = true -> Js.code (Js.lowerChar c) = (Js.code c + 32)%nat.
Proof.
  intros H. unfold Js.lowerChar. rewrite H. unfold Js.code.
  apply nat_ascii_embedding. apply isUpper_range in H. unfold Js.code in H. lia.
Qed.

(** Lower-casing identifies exactly the characters that are the same letter. *)
Lemma lowerChar_eq_iff a b : Js.lowerChar a = Js.lowerChar b <-> sameLetter a b.
Proof.
  unfold sameLetter. split.
  - intros H. apply (f_equal Js.code) in H.
    destruct (Js.isUpper a) eqn:Ha, (Js.isUpper b) eqn:Hb.
    + rewrite !code_lowerChar_upper in H by assumption.
      left. apply code_inj. lia.
    + rewrite code_lowerChar_upper in H by assumption.
      unfold Js.lowerChar in H at 1. rewrite Hb in H. right; left. auto.
    + rewrite (code_lowerChar_upper b) in H by assumption.
      unfold Js.lowerChar in H at 1. rewrite Ha in H. right; right. auto.
    + unfold Js.lowerChar in H. rewrite Ha, Hb in H. left. now apply code_inj.
  - intros [-> | [[Ha Hb] | [Hb Ha]]]; [reflexivity | |].
    + apply code_inj. rewrite code_lowerChar_upper by assumption.
      unfold Js.lowerChar. destruct (Js.isUpper b) eqn:Ub; [|congruence].
      apply isUpper_range in Ha, Ub. lia.
    + apply code_inj. rewrite (code_lowerChar_upper b) by assumption.
      unfold Js.lowerChar. destruct (Js.isUpper a) eqn:Ua; [|congruence].
      apply isUpper_range in Hb, Ua. lia.
Qed.

Lemma startsWith_toLowerCase s q :
  Js.startsWith (Js.toLowerCase s) (Js.toLowerCase q) = true
  <-> exists mid post, s = mid +:+ post /\ equalIgnoringCase mid q.
Proof.
  revert s. induction q as [|b q IH]; intros s; cbn.
  - split; [|reflexivity]. intros _. exists "", s. split; [reflexivity|constructor].
  - destruct s as [|a s]; cbn.
    + split; [discriminate|]. intros (mid & post & E & H).
      inversion H; subst. discriminate.
    + destruct (ascii_dec (Js.lowerChar a) (Js.lowerChar b)) as [E|E].
      * rewrite IH. split.
        -- intros (mid & post & -> & H). exists (String a mid), post.
           split; [reflexivity|]. constructor; [now apply lowerChar_eq_iff|assumption].
        -- intros (mid & post & Es & H). inversion H; subst.
           cbn in Es. injection Es as -> ->. eauto.
      * split; [discriminate|]. intros (mid & post & Es & H).
        inversion H; subst. cbn in Es. injection Es as -> ->.
        exfalso. apply E. now apply lowerChar_eq_iff.
Qed.

(** [includes] on the lower-cased strings decides case-insensitive
    containment. *)
Lemma includes_toLowerCase s q :
  Js.includes (Js.toLowerCase s) (Js.toLowerCase q) = true <-> containsIgnoringCase s q.
Proof.
  unfold containsIgnoringCase. induction s as [|a s IH].
  - pose proof (startsWith_toLowerCase "" q) as S.
    cbn [Js.toLowerCase Js.includes] in *. rewrite orb_false_r, S. split.
    + intros (mid & post & E & H). exists "", mid, post. auto.
    + intros (pre & mid & post & E & H). destruct pre; [|discriminate].
      cbn in E. exists mid, post. auto.
  - cbn [Js.toLowerCase Js.includes]. rewrite orb_true_iff.
    change (String (Js.lowerChar a) (Js.toLowerCase s)) with (Js.toLowerCase (String a s)).
    rewrite startsWith_toLowerCase, IH. split.
    + intros [(mid & post & E & H) | (pre & mid & post & E & H)].
      * exists "", mid, post. auto.
      * exists (String a pre), mid, post. cbn. rewrite E. auto.
    + intros (pre & mid & post & E & H). destruct pre as [|c pre]; cbn in E.
      * left. exists mid, post. auto.
      * right. injection E as -> ->. exists pre, mid, post. auto.
Qed.

Lemma containsIgnoringCase_empty s : containsIgnoringCase s "".
Proof. exists "", "", s. split; [reflexivity|constructor]. Qed.

Lemma trimEnd_empty s : Js.trimEnd s = "" <-> Js.allWhiteSpace s = true.
Proof.
  induction s as [|c s IH]; cbn; [tauto|].
  destruct (Js.trimEnd s) eqn:E.
  - destruct (Js.isWhiteSpace c); cbn.
    + split; intros _; [now apply IH | reflexivity].
    + split; discriminate.
  - rewrite andb_true_iff. split; [discriminate|].
    intros [_ H]. apply IH in H. discriminate.
Qed.

Lemma allWhiteSpace_trimStart s :
  Js.allWhiteSpace (Js.trimStart s) = Js.allWhiteSpace s.
Proof.
  induction s as [|c s IH]; cbn; [reflexivity|].
  destruct (Js.isWhiteSpace c) eqn:E; cbn; [assumption|]. now rewrite E.
Qed.

(** [content.trim() === ""] holds exactly of the empty and white-space-only
    strings. *)
Lemma trim_empty_iff s : Js.trim s = "" <-> Js.allWhiteSpace s = true.
Proof. unfold Js.trim. now rewrite trimEnd_empty, allWhiteSpace_trimStart. Qed.

(** ** Running a handler *)

Ltac run :=
  unfold tryCatch, bind, ret, lift, readStore, callStore, json, statusJson; cbn.

(** ** Persona search *)

Lemma matchesQuery_includes query p :
  Js.includes (Js.toLowerCase (name p)) (Js.toLowerCase query)
  || Js.includes (Js.toLowerCase (description p)) (Js.toLowerCase query) = true
  <-> matchesQuery query p.
Proof.
  unfold matchesQuery. now rewrite orb_true_iff, !includes_toLowerCase.
Qed.

Lemma matchesQuery_empty p : matchesQuery "" p.
Proof. left. apply containsIgnoringCase_empty. Qed.

Lemma filter_all_true {A} (f : A -> bool) (l : list A) :
  (forall x, f x = true) -> List.filter f l = l.
Proof.
  intros H. induction l as [|x l IH]; cbn; [reflexivity|]. now rewrite H, IH.
Qed.

Lemma filter_none {A} (f : A -> bool) (l : list A) :
  (forall x, In x l -> f x = false) -> List.filter f l = [].
Proof.
  induction l as [|x l IH]; cbn; intros H; [reflexivity|].
  rewrite (H x) by auto. auto.
Qed.

(** C9: for every search query the persona search returns exactly the
    personas of the catalog whose name or description contains the query
    case-insensitively, in catalog order, with status 200: the server route
    (a missing query being the empty one) and the sidebar filter with the
    category left on All agree on one filter [keep], which holds exactly of
    the matching personas.  A query that matches no persona yields the empty
    sequence, not an error. *)
Theorem persona_search_returns_matching_subset (q : option string) (w : World) :
  exists keep : Persona -> bool,
    (forall p, keep p = true <-> matchesQuery (default "" q) p)
    /\ get_personas_search q w
       = (json (JsonPersonas (List.filter keep (personas (storage w)))), w)
    /\ (forall ps, filteredPersonas ps (default "" q) "All" = List.filter keep ps)
    /\ ((forall p, In p (personas (storage w)) -> ~ matchesQuery (default "" q) p) ->
        get_personas_search q w = (json (JsonPersonas []), w)).
Proof.
  set (query := default "" q).
  exists (fun p => Js.includes (Js.toLowerCase (name p)) (Js.toLowerCase query)
                   || Js.includes (Js.toLowerCase (description p)) (Js.toLowerCase query)).
  assert (Hsrv : get_personas_search q w
                 = (json (JsonPersonas
                      (List.filter
                         (fun p => Js.includes (Js.toLowerCase (name p)) (Js.toLowerCase query)
                                   || Js.includes (Js.toLowerCase (description p))
                                        (Js.toLowerCase query))
                         (personas (storage w)))), w)).
  { unfold get_personas_search. fold query. run.
    destruct (String.eqb_spec query "") as [E|E]; cbn; [|reflexivity].
    unfold getPersonas. rewrite filter_all_true; [reflexivity|].
    intros p. rewrite E. apply matchesQuery_includes, matchesQuery_empty. }
  split; [intros p; apply matchesQuery_includes|].
  split; [exact Hsrv|]. split.
  - intros ps. unfold filteredPersonas. apply filter_ext. intros p.
    unfold matchesSearch, matchesCategory. cbn. rewrite andb_true_r.
    destruct (String.eqb_spec query "") as [E|E]; cbn; [|reflexivity].
    symmetry. rewrite E. apply matchesQuery_includes, matchesQuery_empty.
  - intros Hnone. rewrite Hsrv. rewrite filter_none; [reflexivity|].
    intros p Hp. apply not_true_is_false. intros Hk.
    apply (Hnone p Hp). now apply matchesQuery_includes.
Qed.

(** C10: with an empty or a missing query the search route returns the
    whole persona catalog with status 200. *)
Theorem empty_query_returns_whole_catalog (w : World) :
  get_personas_search None w = (json (JsonPersonas (personas (storage w))), w)
  /\ get_personas_search (Some "") w = (json (JsonPersonas (personas (storage w))), w).
Proof. split; reflexivity. Qed.

Example search_curie :
  fst (get_personas_search (Some "RADIO") emptyWorld) = json (JsonPersonas [curie]).
Proof. reflexivity. Qed.

Example search_nothing :
  fst (get_personas_search (Some "napoleon") emptyWorld) = json (JsonPersonas []).
Proof. reflexivity. Qed.

(** ** The message log *)

Lemma log_withMessage sid message st :
  getMessagesBySessionId sid (withMessage message st)
  = getMessagesBySessionId sid st
    ++ (if (msg_sessionId message =? sid)%string then [message] else []).
Proof.
  unfold getMessagesBySessionId, withMessage. cbn.
  rewrite List.filter_app. cbn. now destruct (msg_sessionId message =? sid)%string.
Qed.

Lemma log_withMessage_same now m st :
  getMessagesBySessionId (ins_sessionId m) (withMessage (messageOf now m st) st)
  = getMessagesBySessionId (ins_sessionId m) st ++ [messageOf now m st].
Proof. rewrite log_withMessage. cbn. now rewrite String.eqb_refl. Qed.

Lemma createMessage_appends ve now m st :
  Js.allWhiteSpace (ins_content m) = false ->
  is_Some (chatSessions st !! ins_sessionId m) ->
  createMessage ve now m st = Normal (messageOf now m st, withMessage (messageOf now m st) st).
Proof. intros Hc [s Hs]. unfold createMessage. now rewrite Hc, Hs. Qed.

Lemma conversationHistory_app l1 l2 :
  conversationHistory (l1 ++ l2) = conversationHistory l1 ++ conversationHistory l2.
Proof. unfold conversationHistory. now rewrite List.filter_app, List.map_app. Qed.

(** The history sent to the generator keeps the order of the log, drops the
    system messages and nothing else. *)
Lemma conversationHistory_spec l :
  conversationHistory l
  = map roleAndContent (List.filter (fun m => negb (Role_eqb (role m) system)) l)
  /\ (forall m, In m l -> role m <> system -> In (roleAndContent m) (conversationHistory l))
  /\ (forall r c, In (r, c) (conversationHistory l) -> r <> system).
Proof.
  split; [reflexivity|]. split.
  - intros m Hm Hr. unfold conversationHistory. apply (in_map roleAndContent).
    apply List.filter_In. split; [assumption|]. now destruct (role m).
  - intros r c H. unfold conversationHistory in H. apply in_map_iff in H.
    destruct H as (m & E & Hm). apply List.filter_In in Hm. destruct Hm as [_ Hm].
    injection E as <- _. now destruct (role m).
Qed.

(** ** Sending a message *)

Lemma allWhiteSpace_false_nonempty s : Js.allWhiteSpace s = false -> s <> "".
Proof. intros H ->. discriminate. Qed.

Lemma acceptableContent_text text :
  Js.allWhiteSpace text = false -> acceptableContent (JString text) = Some text.
Proof.
  intros H. unfold acceptableContent, truthy.
  destruct (String.eqb_spec text "") as [E|_].
  - now apply allWhiteSpace_false_nonempty in H.
  - destruct (String.eqb_spec (Js.trim text) "") as [E|_]; [|reflexivity].
    apply trim_empty_iff in E. congruence.
Qed.

Lemma acceptableContent_blank v : blankContent v -> acceptableContent v = None.
Proof.
  intros [| |s H]; [reflexivity..|]. unfold acceptableContent.
  apply trim_empty_iff in H. rewrite H. cbn. now rewrite orb_true_r.
Qed.

Lemma acceptableContent_Some v text :
  acceptableContent v = Some text -> v = JString text /\ Js.allWhiteSpace text = false.
Proof.
  unfold acceptableContent. destruct v as [| |n|s]; try discriminate.
  destruct (negb (truthy (JString s))); [discriminate|]. cbn.
  destruct (String.eqb_spec (Js.trim s) "") as [E|E]; [discriminate|].
  intros [= ->]. split; [reflexivity|].
  apply not_true_is_false. intros H. now apply trim_empty_iff in H.
Qed.

Section SendMessage.

Variable validationError : exn.
Variable generatePersonaResponse : Persona -> list (Role * string) -> string -> completion string.

Local Abbreviation send := (post_session_messages validationError generatePersonaResponse).

(** The send-message route once its four checks have passed: the user
    message is appended, the generator is called on the history of the log
    as it was, and the reply, if any, is appended. *)
Lemma send_past_checks env sid text w session pid persona :
  Js.allWhiteSpace text = false ->
  getChatSessionById sid (storage w) = Some session ->
  selectedPersona session = Some pid ->
  getPersonaById pid (storage w) = Some persona ->
  let um := userMessage env sid text pid w in
  let st1 := withMessage um (storage w) in
  let history := conversationHistory (logOf sid w) in
  let calls := generatorCalls w ++
                 [{| call_persona := persona; call_history := history; call_text := text |}] in
  send env sid (JString text) w =
  match generatePersonaResponse persona history text with
  | Thrown e => (sendMessageError e, {| storage := st1; generatorCalls := calls |})
  | Normal reply =>
      if Js.allWhiteSpace reply
      then (sendMessageError validationError, {| storage := st1; generatorCalls := calls |})
      else
        let am := messageOf (later env)
                    {| ins_sessionId := sid; ins_role := assistant; ins_content := reply;
                       ins_personaId := pid |} st1 in
        (statusJson 201 (JsonExchange um am),
         {| storage := withMessage am st1; generatorCalls := calls |})
  end.
Proof.
  intros Htext Hs Hp Hpersona um st1 history calls.
  unfold post_session_messages.
  rewrite (acceptableContent_text _ Htext).
  unfold tryCatch, bind at 1, readStore at 1. rewrite Hs, Hp.
  unfold bind at 1, readStore at 1. rewrite Hpersona.
  unfold insertMessageSchema_parse, bind at 1, lift at 1.
  unfold bind at 1, callStore at 1.
  rewrite createMessage_appends; [|exact Htext|cbn; unfold getChatSessionById in Hs; eauto].
  fold (userMessage env sid text pid w). fold um. fold st1.
  unfold bind at 1, readStore at 1. cbn [storage].
  change sid with (ins_sessionId {| ins_sessionId := sid; ins_role := user;
                                    ins_content := text; ins_personaId := pid |}) at 1.
  unfold st1, um, userMessage. rewrite log_withMessage_same.
  rewrite conversationHistory_app. cbn [conversationHistory]. 
  unfold conversationHistory at 2. cbn [List.filter role messageOf ins_role Role_eqb negb map
                                         content ins_content ins_sessionId].
  rewrite removelast_last.
  fold (logOf sid w). fold history.
  unfold bind at 1, callGenerator at 1. cbn [storage generatorCalls].
  fold calls.
  destruct (generatePersonaResponse persona history text) as [reply|e]; [|reflexivity].
  unfold bind at 1, lift at 1. unfold bind at 1, callStore at 1. cbn [storage generatorCalls].
  unfold createMessage. cbn [ins_content ins_sessionId].
  destruct (Js.allWhiteSpace reply); [reflexivity|].
  cbn [withMessage chatSessions]. unfold getChatSessionById in Hs. rewrite Hs.
  reflexivity.
Qed.

(** The three existence checks of the send-message route, in their order:
    each failure answers at once and leaves the world untouched. *)
Lemma send_before_generator env sid text w :
  Js.allWhiteSpace text = false ->
  match getChatSessionById sid (storage w) with
  | None => send env sid (JString text) w
            = (statusJson 404 (JsonError "Chat session not found"), w)
  | Some session =>
      match selectedPersona session with
      | None => send env sid (JString text) w
                = (statusJson 400 (JsonError "No persona selected for this chat session"), w)
      | Some pid =>
          match getPersonaById pid (storage w) with
          | None => send env sid (JString text) w
                    = (statusJson 404 (JsonError "Persona not found"), w)
          | Some persona => True
          end
      end
  end.
Proof.
  intros Htext. unfold post_session_messages.
  rewrite (acceptableContent_text _ Htext). unfold tryCatch, bind, readStore.
  destruct (getChatSessionById sid (storage w)) as [session|]; [|reflexivity].
  destruct (selectedPersona session) as [pid|]; [|reflexivity].
  now destruct (getPersonaById pid (storage w)).
Qed.

(** The send-message route writes the message log only. *)
Lemma send_keeps_catalog_and_sessions env sid content' w :
  personas (storage (snd (send env sid content' w))) = personas (storage w)
  /\ chatSessions (storage (snd (send env sid content' w))) = chatSessions (storage w).
Proof.
  destruct (acceptableContent content') as [text|] eqn:Hc.
  2:{ unfold post_session_messages. rewrite Hc. now run. }
  apply acceptableContent_Some in Hc. destruct Hc as [-> Htext].
  pose proof (send_before_generator env sid text w Htext) as E.
  destruct (getChatSessionById sid (storage w)) as [session|] eqn:Hs; [|now rewrite E].
  destruct (selectedPersona session) as [pid|] eqn:Hp; [|now rewrite E].
  destruct (getPersonaById pid (storage w)) as [persona|] eqn:Hpersona; [|now rewrite E].
  rewrite (send_past_checks env sid text w session pid persona Htext Hs Hp Hpersona).
  cbv zeta.
  destruct (generatePersonaResponse persona (conversationHistory (logOf sid w)) text)
    as [reply|e]; [|now split].
  now destruct (Js.allWhiteSpace reply).
Qed.

(** C5: a send-message request whose content is empty, whitespace-only or
    missing fails with the validation error (400) and changes nothing: the
    world, and with it the session's log, is as before. *)
Theorem blank_content_is_rejected env sid content' w :
  blankContent content' ->
  exists r,
    send env sid content' w = (r, w)
    /\ r = statusJson 400 (JsonError "Message content is required")
    /\ kindOfStatus (status r) = Some ValidationError
    /\ logOf sid (snd (send env sid content' w)) = logOf sid w.
Proof.
  intros H. eexists. unfold post_session_messages.
  rewrite (acceptableContent_blank _ H). run. repeat split; reflexivity.
Qed.


(** C1: when a send-message request reaches the generator and the generator
    call fails, the user's message is already in the session's log and stays
    there (the log is the old one followed by that one message: one longer,
    not two), and the response is 503, the GeneratorUnavailable kind, which
    is none of 400, 404 and 500. *)
Theorem generator_failure_keeps_user_message env sid text w session pid persona :
  Js.allWhiteSpace text = false ->
  getChatSessionById sid (storage w) = Some session ->
  selectedPersona session = Some pid ->
  getPersonaById pid (storage w) = Some persona ->
  generatePersonaResponse persona (conversationHistory (logOf sid w)) text
  = Thrown generatorFailure ->
  exists r w' um,
    send env sid (JString text) w = (r, w')
    /\ status r = 503
    /\ kindOfStatus (status r) = Some GeneratorUnavailable
    /\ (status r <> 400 /\ status r <> 404 /\ status r <> 500)
    /\ logOf sid w' = logOf sid w ++ [um]
    /\ (role um, content um) = (user, text)
    /\ length (logOf sid w') = S (length (logOf sid w)).
Proof.
  intros Htext Hs Hp Hpersona Hgen.
  pose proof (send_past_checks env sid text w session pid persona Htext Hs Hp Hpersona) as R.
  cbv zeta in R. rewrite Hgen in R.
  assert (L : logOf sid {| storage := withMessage (userMessage env sid text pid w) (storage w);
                           generatorCalls := generatorCalls w ++
                             [{| call_persona := persona;
                                 call_history := conversationHistory (logOf sid w);
                                 call_text := text |}] |}
              = logOf sid w ++ [userMessage env sid text pid w]).
  { unfold logOf. cbn [storage]. rewrite log_withMessage.
    unfold userMessage. cbn [msg_sessionId messageOf ins_sessionId].
    now rewrite String.eqb_refl. }
  eexists _, _, (userMessage env sid text pid w). split; [exact R|].
  rewrite L. cbn [sendMessageError generatorFailure].
  repeat split; try reflexivity; try (cbn; lia).
  rewrite length_app. cbn. lia.
Qed.

(** An exception of the generator that does not carry the message of
    [generatorFailure] is answered as an internal error. *)
Lemma other_generator_error_is_internal env sid text w session pid persona message :
  Js.allWhiteSpace text = false ->
  getChatSessionById sid (storage w) = Some session ->
  selectedPersona session = Some pid ->
  getPersonaById pid (storage w) = Some persona ->
  generatePersonaResponse persona (conversationHistory (logOf sid w)) text
  = Thrown (Error message) ->
  message <> "Failed to generate response from OpenAI API" ->
  fst (send env sid (JString text) w)
  = statusJson 500 (JsonError "Failed to process message").
Proof.
  intros Htext Hs Hp Hpersona Hgen Hm.
  rewrite (send_past_checks env sid text w session pid persona Htext Hs Hp Hpersona).
  cbv zeta. rewrite Hgen. cbn.
  now destruct (String.eqb_spec message "Failed to generate response from OpenAI API").
Qed.

(** C8 (amended): when a send-message request reaches the generator, it
    makes exactly one call, with the selected persona, with the session's
    prior messages other than the system-role ones, in log order, each as its
    (role, content) pair and without the user message just sent, and with
    the new user text passed separately. *)
Theorem generator_takes_prior_conversation env sid text w session pid persona :
  Js.allWhiteSpace text = false ->
  getChatSessionById sid (storage w) = Some session ->
  selectedPersona session = Some pid ->
  getPersonaById pid (storage w) = Some persona ->
  generatorCalls (snd (send env sid (JString text) w))
  = generatorCalls w ++
    [{| call_persona := persona;
        call_history :=
          map roleAndContent
              (List.filter (fun m => negb (Role_eqb (role m) system)) (logOf sid w));
        call_text := text |}].
Proof.
  intros Htext Hs Hp Hpersona.
  rewrite (send_past_checks env sid text w session pid persona Htext Hs Hp Hpersona).
  cbv zeta. fold (conversationHistory (logOf sid w)).
  destruct (generatePersonaResponse persona (conversationHistory (logOf sid w)) text)
    as [reply|e]; [|reflexivity].
  now destruct (Js.allWhiteSpace reply).
Qed.

End SendMessage.

Lemma blank_content_is_rejected_witness :
  blankContent (JString "   ")
  /\ exists r,
       post_session_messages demoValidationError echoGenerator demoEnv "s1" (JString "   ")
         boundWorld = (r, boundWorld)
       /\ r = statusJson 400 (JsonError "Message content is required")
       /\ kindOfStatus (status r) = Some ValidationError
       /\ logOf "s1" (snd (post_session_messages demoValidationError echoGenerator demoEnv
                             "s1" (JString "   ") boundWorld)) = logOf "s1" boundWorld.
Proof.
  assert (H : blankContent (JString "   ")) by (apply blank_spaces; reflexivity).
  split; [exact H|].
  exact (blank_content_is_rejected demoValidationError echoGenerator demoEnv "s1"
           (JString "   ") boundWorld H).
Defined.


Lemma generator_failure_keeps_user_message_witness :
  Js.allWhiteSpace "Hello" = false
  /\ getChatSessionById "s1" (storage greetedWorld) = Some curieSession
  /\ selectedPersona curieSession = Some 1
  /\ getPersonaById 1 (storage greetedWorld) = Some curie
  /\ exists r w' um,
       post_session_messages demoValidationError failingGenerator demoEnv "s1"
         (JString "Hello") greetedWorld = (r, w')
       /\ status r = 503
       /\ kindOfStatus (status r) = Some GeneratorUnavailable
       /\ (status r <> 400 /\ status r <> 404 /\ status r <> 500)
       /\ logOf "s1" w' = logOf "s1" greetedWorld ++ [um]
       /\ (role um, content um) = (user, "Hello")
       /\ length (logOf "s1" w') = S (length (logOf "s1" greetedWorld)).
Proof.
  repeat (split; [reflexivity|]).
  exact (generator_failure_keeps_user_message demoValidationError failingGenerator demoEnv
           "s1" "Hello" greetedWorld curieSession 1 curie
           eq_refl eq_refl eq_refl eq_refl eq_refl).
Defined.

(** The history omits the system message that stands in the log of
    [noticedWorld]: the generator is called with an empty history although
    the session has one prior message. *)
Lemma history_is_not_all_prior_messages :
  exists call,
    generatorCalls
      (snd (post_session_messages demoValidationError echoGenerator demoEnv "s1"
              (JString "Hello") noticedWorld)) = [call]
    /\ logOf "s1" noticedWorld = [notice]
    /\ call_history call = []
    /\ call_history call <> map roleAndContent (logOf "s1" noticedWorld).
Proof.
  eexists. split; [reflexivity|]. split; [reflexivity|]. split; [reflexivity|].
  discriminate.
Qed.

Lemma generator_takes_prior_conversation_witness :
  Js.allWhiteSpace "Hello" = false
  /\ getChatSessionById "s1" (storage noticedWorld) = Some curieSession
  /\ selectedPersona curieSession = Some 1
  /\ getPersonaById 1 (storage noticedWorld) = Some curie
  /\ generatorCalls
       (snd (post_session_messages demoValidationError echoGenerator demoEnv "s1"
               (JString "Hello") noticedWorld))
     = generatorCalls noticedWorld ++
       [{| call_persona := curie;
           call_history :=
             map roleAndContent
                 (List.filter (fun m => negb (Role_eqb (role m) system))
                              (logOf "s1" noticedWorld));
           call_text := "Hello" |}].
Proof.
  repeat (split; [reflexivity|]).
  exact (generator_takes_prior_conversation demoValidationError echoGenerator demoEnv
           "s1" "Hello" noticedWorld curieSession 1 curie eq_refl eq_refl eq_refl eq_refl).
Defined.

(** ** Clearing the messages *)

(** C7 (amended): the clear-messages route always succeeds (204, no body),
    also on a session with no messages, and is idempotent; it removes
    nothing: the world, and with it the session's message list, is what it
    was before. *)
Theorem clear_messages_succeeds_and_keeps_log (sid : string) (w : World) :
  exists r w',
    delete_session_messages sid w = (r, w')
    /\ status r = 204 /\ kindOfStatus (status r) = None
    /\ delete_session_messages sid w' = (r, w')
    /\ w' = w
    /\ logOf sid w' = logOf sid w.
Proof. exists {| status := 204; body := NoBody |}, w. repeat split; reflexivity. Qed.

(** After clearing the messages of [s1] in [greetedWorld] its message list
    still holds the greeting. *)
Lemma clear_messages_leaves_messages :
  let w' := snd (delete_session_messages "s1" greetedWorld) in
  logOf "s1" w' = [greeting]
  /\ logOf "s1" w' <> []
  /\ fst (get_session_messages "s1" w') = json (JsonMessages [greeting]).
Proof. cbv zeta. split; [reflexivity|]. split; [discriminate|reflexivity]. Qed.

(** ** Creating or resuming a session *)

Section Sessions.

Variable validationError notFoundError : exn.

Local Abbreviation create := (post_sessions notFoundError).
Local Abbreviation change := (patch_session_persona validationError notFoundError).

(** Resuming a session without a usable persona id returns it as it is. *)
Lemma create_existing_unchanged env sid v w existing :
  getChatSessionById sid (storage w) = Some existing ->
  sid <> "" ->
  (truthy (coercePersonaId v) = false
   \/ exists n, coercePersonaId v = JNumber n /\ currentPersonaId existing = Some n) ->
  create env (JString sid) v w = (json (JsonSession existing), w).
Proof.
  intros Hs Hsid Hv. unfold post_sessions.
  assert (T : truthy (JString sid) = true).
  { cbn. now destruct (String.eqb_spec sid ""). }
  rewrite T. cbn [negb]. unfold tryCatch, bind at 1, readStore at 1. rewrite Hs.
  destruct Hv as [Hv | (n & Hn & Hc)].
  - destruct (coercePersonaId v) as [| |n|s]; try reflexivity.
    rewrite Hv. reflexivity.
  - rewrite Hn. rewrite Hc. unfold differsFrom. rewrite Z.eqb_refl.
    rewrite andb_false_r. reflexivity.
Qed.




(** ** Changing the persona of a session *)

Lemma personaChangeNotice_not_blank persona :
  Js.allWhiteSpace (personaChangeNotice persona) = false.
Proof. reflexivity. Qed.

(** The persona-change route once its checks have passed: the session is
    rebound in the store and the notice is appended to the log. *)
Lemma change_persona_appends_notice env sid v n persona session w :
  truthy v = true ->
  parseIntOfToString v = JNumber n ->
  getPersonaById n (storage w) = Some persona ->
  getChatSessionById sid (storage w) = Some session ->
  exists updated st1 sysmsg,
    change env sid v w
    = (json (JsonSession updated),
       {| storage := withMessage sysmsg st1; generatorCalls := generatorCalls w |})
    /\ updated = {| sessionId := sessionId session; currentPersonaId := Some n;
                    createdAt := createdAt session |}
    /\ st1 = {| personas := personas (storage w);
                chatSessions := <[sid := updated]> (chatSessions (storage w));
                messages := messages (storage w);
                currentMessageId := currentMessageId (storage w) |}
    /\ sysmsg = messageOf (now env)
                  {| ins_sessionId := sid; ins_role := system;
                     ins_content := personaChangeNotice persona; ins_personaId := n |} st1.
Proof.
  intros Hv Hn Hp Hs. eexists _, _, _. split; [|split; [reflexivity|split; reflexivity]].
  unfold patch_session_persona. rewrite Hv, Hn.
  unfold tryCatch, bind at 1, readStore at 1. rewrite Hp.
  unfold bind at 1, readStore at 1. rewrite Hs.
  unfold bind at 1, callStore at 1, updateChatSessionPersona.
  unfold getChatSessionById in Hs. rewrite Hs, Hp.
  unfold bind at 1, callStore at 1. cbn [storage generatorCalls].
  rewrite createMessage_appends.
  - reflexivity.
  - apply personaChangeNotice_not_blank.
  - cbn. rewrite lookup_insert_eq. eauto.
Qed.

(** The persona-change route appends exactly one system message, naming the
    new persona, after all prior messages of the session. *)
Lemma change_persona_log env sid v n persona session w :
  truthy v = true ->
  parseIntOfToString v = JNumber n ->
  getPersonaById n (storage w) = Some persona ->
  getChatSessionById sid (storage w) = Some session ->
  exists sysmsg,
    logOf sid (snd (change env sid v w)) = logOf sid w ++ [sysmsg]
    /\ role sysmsg = system
    /\ content sysmsg = "You are now chatting with " +:+ name persona +:+ ".".
Proof.
  intros Hv Hn Hp Hs.
  destruct (change_persona_appends_notice env sid v n persona session w Hv Hn Hp Hs)
    as (updated & st1 & sysmsg & -> & _ & Hst & Hm).
  exists sysmsg. unfold logOf. cbn [snd storage]. rewrite log_withMessage.
  subst sysmsg. cbn [msg_sessionId messageOf ins_sessionId role ins_role content ins_content].
  rewrite String.eqb_refl. subst st1. repeat split; reflexivity.
Qed.

(** A route answer that is not the success of the persona change leaves the
    world as it was. *)
Lemma change_persona_cases env sid v w :
  change env sid v w = (fst (change env sid v w), w)
  \/ exists n persona session,
       truthy v = true /\ parseIntOfToString v = JNumber n
       /\ getPersonaById n (storage w) = Some persona
       /\ getChatSessionById sid (storage w) = Some session.
Proof.
  destruct (truthy v) eqn:Hv.
  2:{ left. unfold patch_session_persona. rewrite Hv. reflexivity. }
  destruct (parseIntOfToString v) as [| |n|s] eqn:Hn;
    try (left; unfold patch_session_persona; rewrite Hv, Hn; reflexivity).
  destruct (getPersonaById n (storage w)) as [persona|] eqn:Hp.
  2:{ left. unfold patch_session_persona. rewrite Hv, Hn.
      unfold tryCatch, bind, readStore. now rewrite Hp. }
  destruct (getChatSessionById sid (storage w)) as [session|] eqn:Hs.
  2:{ left. unfold patch_session_persona. rewrite Hv, Hn.
      unfold tryCatch, bind, readStore. now rewrite Hp, Hs. }
  right. eauto 8.
Qed.

End Sessions.

(** ** The persona references of the sessions *)

Lemma snd_tryCatch (m : M Response) handler w : snd (tryCatch m handler w) = snd (m w).
Proof. unfold tryCatch. now destruct (m w) as [[r|e] w']. Qed.

Lemma personaRefsValid_same st st' :
  personas st' = personas st -> chatSessions st' = chatSessions st ->
  personaRefsValid st -> personaRefsValid st'.
Proof.
  intros Hp Hc H sid session n Hs Hn. rewrite Hc in Hs.
  specialize (H sid session n Hs Hn). unfold getPersonaById in *. now rewrite Hp.
Qed.

Lemma personaRefsValid_insert st sid session msgs next :
  personaRefsValid st ->
  (forall n, currentPersonaId session = Some n -> is_Some (getPersonaById n st)) ->
  personaRefsValid {| personas := personas st;
                      chatSessions := <[sid := session]> (chatSessions st);
                      messages := msgs; currentMessageId := next |}.
Proof.
  intros H Hnew sid' session' n Hs Hn. cbn in Hs.
  unfold getPersonaById. cbn [personas].
  destruct (decide (sid = sid')) as [->|Hne].
  - rewrite lookup_insert_eq in Hs. injection Hs as <-. now apply Hnew.
  - rewrite lookup_insert_ne in Hs by assumption. exact (H sid' session' n Hs Hn).
Qed.

Lemma personaRefsValid_withMessage message st :
  personaRefsValid st -> personaRefsValid (withMessage message st).
Proof. now apply personaRefsValid_same. Qed.

Section Invariant.

Variable validationError notFoundError : exn.
Variable generatePersonaResponse : Persona -> list (Role * string) -> string -> completion string.

Local Abbreviation route := (handle validationError notFoundError generatePersonaResponse).

Lemma createNewSession_keeps_valid env sidv v w :
  personaRefsValid (storage w) ->
  bindsKnownPersona v (storage w) ->
  personaRefsValid (storage (snd (createNewSession env sidv (coercePersonaId v) w))).
Proof.
  intros H Hb. unfold bindsKnownPersona in Hb. unfold createNewSession.
  destruct sidv as [| |k|s]; try exact H.
  unfold bind, lift, callStore, createChatSession, ret. cbn.
  destruct (orUndefined (coercePersonaId v)) as [| |n|t]; cbn; try exact H.
  - destruct (chatSessions (storage w) !! s); cbn; [exact H|].
    apply personaRefsValid_insert; [exact H|]. discriminate.
  - destruct (chatSessions (storage w) !! s); cbn; [exact H|].
    apply personaRefsValid_insert; [exact H|]. cbn. now intros ? [= <-].
Qed.

(** X21: every route keeps the persona references of the sessions valid, the
    create-session route on condition that the persona id it is given names
    a persona of the catalog. *)
Lemma handle_keeps_personaRefsValid env r w :
  personaRefsValid (storage w) ->
  match r with
  | PostSession _ v => bindsKnownPersona v (storage w)
  | _ => True
  end ->
  personaRefsValid (storage (snd (route env r w))).
Proof.
  intros H Hr. destruct r as [|c|q|i|sidv v|sid v|sid|sid c|sid]; cbn [handle].
  - exact H.
  - exact H.
  - unfold get_personas_search. rewrite snd_tryCatch.
    now destruct (default "" q =? "")%string.
  - unfold get_persona. rewrite snd_tryCatch.
    destruct (Js.parseInt i); [|exact H]. unfold bind, readStore.
    now destruct (getPersonaById _ _).
  - unfold post_sessions. rewrite snd_tryCatch. cbv zeta.
    destruct (truthy sidv) eqn:Ht; cbn [negb].
    2:{ now apply createNewSession_keeps_valid. }
    unfold bind at 1, readStore at 1.
    destruct sidv as [| |k|s]; try discriminate.
    { now apply createNewSession_keeps_valid. }
    destruct (getChatSessionById s (storage w)) as [existing|] eqn:Hs.
    2:{ now apply createNewSession_keeps_valid. }
    destruct (coercePersonaId v) as [| |n|t]; try exact H.
    destruct (truthy (JNumber n) && differsFrom (currentPersonaId existing) n); [|exact H].
    unfold bind, callStore, updateChatSessionPersona, ret. cbn [storage].
    unfold getChatSessionById in Hs. rewrite Hs.
    destruct (getPersonaById n (storage w)) as [persona|] eqn:Hp; cbn; [|exact H].
    apply personaRefsValid_insert; [exact H|]. cbn. intros ? [= <-]. rewrite Hp. eauto.
  - destruct (change_persona_cases validationError notFoundError env sid v w)
      as [E | (n & persona & session & Hv & Hn & Hp & Hs)].
    + rewrite E. exact H.
    + destruct (change_persona_appends_notice validationError notFoundError
                  env sid v n persona session w Hv Hn Hp Hs)
        as (updated & st1 & sysmsg & -> & Hu & Hst & _).
      cbn [snd storage]. apply personaRefsValid_withMessage. subst st1.
      apply personaRefsValid_insert; [exact H|]. subst updated. cbn.
      intros ? [= <-]. rewrite Hp. eauto.
  - unfold get_session_messages. rewrite snd_tryCatch. unfold bind, readStore.
    now destruct (getChatSessionById sid (storage w)).
  - destruct (send_keeps_catalog_and_sessions validationError generatePersonaResponse
                env sid c w) as [Hp Hc].
    now apply (personaRefsValid_same (storage w)).
  - exact H.
Qed.

End Invariant.

(** ** The routes on the worlds above *)



(** C2, on the create-session route: resuming session [s1], bound to Marie
    Curie, with the persona id of Julius Caesar changes the session's active
    persona and appends no message: the log of the session is as before and
    holds no system-role message. *)
Theorem resume_changes_persona_without_system_message :
  let w := greetedWorld in
  let w' := snd (post_sessions demoNotFoundError demoEnv (JString "s1") (JNumber 2) w) in
  (currentPersonaId <$> getChatSessionById "s1" (storage w)) = Some (Some 1)
  /\ fst (post_sessions demoNotFoundError demoEnv (JString "s1") (JNumber 2) w)
     = json (JsonSession {| sessionId := "s1"; currentPersonaId := Some 2; createdAt := 900 |})
  /\ (currentPersonaId <$> getChatSessionById "s1" (storage w')) = Some (Some 2)
  /\ logOf "s1" w' = logOf "s1" w
  /\ List.filter (fun m => Role_eqb (role m) system) (logOf "s1" w') = [].
Proof. cbv zeta. repeat split; reflexivity. Qed.

(** The persona-change route on the same input appends the system message. *)
Example change_persona_writes_system_message :
  let w' := snd (patch_session_persona demoValidationError demoNotFoundError demoEnv "s1"
                   (JNumber 2) greetedWorld) in
  (currentPersonaId <$> getChatSessionById "s1" (storage w')) = Some (Some 2)
  /\ logOf "s1" w'
     = [greeting;
        {| msg_id := 2; msg_sessionId := "s1"; role := system;
           content := "You are now chatting with Julius Caesar."; personaId := 2;
           timestamp := 1000 |}].
Proof. cbv zeta. split; reflexivity. Qed.

Lemma personaRefsValid_emptyWorld : personaRefsValid (storage emptyWorld).
Proof. intros sid session n Hs. cbn in Hs. now rewrite lookup_empty in Hs. Qed.

(** C4, on the create-session route: persona 999 is not in the catalog and
    the persona references of the store are valid; creating a session with
    persona id 999 succeeds with 201 and leaves the new session bound to 999,
    so that the persona references are no longer valid. *)
Theorem create_session_binds_unknown_persona :
  let w' := snd (post_sessions demoNotFoundError demoEnv JUndefined (JNumber 999) emptyWorld) in
  personaRefsValid (storage emptyWorld)
  /\ getPersonaById 999 (storage emptyWorld) = None
  /\ fst (post_sessions demoNotFoundError demoEnv JUndefined (JNumber 999) emptyWorld)
     = statusJson 201
         (JsonSession {| sessionId := nanoid demoEnv; currentPersonaId := Some 999;
                         createdAt := 1000 |})
  /\ (currentPersonaId <$> getChatSessionById (nanoid demoEnv) (storage w'))
     = Some (Some 999)
  /\ ~ personaRefsValid (storage w').
Proof.
  cbv zeta. split; [exact personaRefsValid_emptyWorld|].
  split; [reflexivity|]. split; [reflexivity|]. split; [reflexivity|].
  intros H.
  destruct (H (nanoid demoEnv)
              {| sessionId := nanoid demoEnv; currentPersonaId := Some 999; createdAt := 1000 |}
              999 eq_refl eq_refl) as [p Hp].
  discriminate.
Qed.

(** The persona-change route refuses the unknown persona. *)
Example change_persona_checks_catalog :
  patch_session_persona demoValidationError demoNotFoundError demoEnv "s1" (JNumber 999)
    boundWorld
  = (statusJson 404 (JsonError "Persona not found"), boundWorld).
Proof. reflexivity. Qed.

(** A persona-less session answers 400 to a message. *)
Example no_persona_selected :
  let w := snd (post_sessions demoNotFoundError demoEnv JUndefined JUndefined emptyWorld) in
  post_session_messages demoValidationError echoGenerator demoEnv (nanoid demoEnv)
    (JString "Hello") w
  = (statusJson 400 (JsonError "No persona selected for this chat session"), w).
Proof. reflexivity. Qed.

Lemma persona_search_returns_matching_subset_witness :
  (forall p, In p (personas (storage emptyWorld)) -> ~ matchesQuery "napoleon" p)
  /\ get_personas_search (Some "napoleon") emptyWorld = (json (JsonPersonas []), emptyWorld).
Proof.
  assert (Hnone : forall p, In p (personas (storage emptyWorld)) -> ~ matchesQuery "napoleon" p).
  { intros p Hp Hm. apply matchesQuery_includes in Hm.
    destruct Hp as [<-|[<-|[]]]; discriminate Hm. }
  split; [exact Hnone|].
  destruct (persona_search_returns_matching_subset (Some "napoleon") emptyWorld)
    as (keep & _ & _ & _ & Hempty).
  exact (Hempty Hnone).
Defined.

(** * Further properties of the client filter and of the routes *)

(** ** The sidebar filter *)

Lemma append_cons x (a b : string) : String x a +:+ b = String x (a +:+ b).
Proof. reflexivity. Qed.


Lemma toLowerCase_app (a b : string) :
  Js.toLowerCase (a +:+ b) = Js.toLowerCase a +:+ Js.toLowerCase b.
Proof.
  induction a as [|x a IH]; [reflexivity|].
  change (String (Js.lowerChar x) (Js.toLowerCase (a +:+ b))
          = String (Js.lowerChar x) (Js.toLowerCase a +:+ Js.toLowerCase b)).
  now rewrite IH.
Qed.















(** ** What a request does to the world *)

Lemma orUndefined_coercePersonaId v :
  orUndefined (coercePersonaId v) = JUndefined
  \/ exists n, n <> 0 /\ coercePersonaId v = JNumber n
               /\ orUndefined (coercePersonaId v) = JNumber n.
Proof.
  unfold orUndefined. destruct (coercePersonaId v) as [| |n|s] eqn:E; cbn; auto.
  - destruct (Z.eqb_spec n 0); cbn; [auto|]. right. eauto.
  - destruct (String.eqb_spec s ""); cbn; [auto|]. exfalso.
    unfold coercePersonaId in E. destruct v as [| |k|t]; try discriminate.
    destruct (truthy (JString t)) eqn:T.
    + unfold parseIntValue in E. destruct (Js.parseInt t); discriminate.
    + injection E as ->. cbn in T. destruct (String.eqb_spec s ""); [contradiction|discriminate].
Qed.

Section Effects.

Variable validationError notFoundError : exn.
Variable generatePersonaResponse : Persona -> list (Role * string) -> string -> completion string.

Local Abbreviation route := (handle validationError notFoundError generatePersonaResponse).
Local Abbreviation create := (post_sessions notFoundError).
Local Abbreviation change := (patch_session_persona validationError notFoundError).
Local Abbreviation send := (post_session_messages validationError generatePersonaResponse).

(** Creating a session stores it under its token, unless the token is
    taken, and writes nothing else. *)
Lemma createNewSession_world env sid v w :
  exists session,
    createNewSession env (JString sid) (coercePersonaId v) w
    = (Normal (statusJson 201 (JsonSession session)),
       {| storage :=
            {| personas := personas (storage w);
               chatSessions :=
                 match chatSessions (storage w) !! sid with
                 | Some _ => chatSessions (storage w)
                 | None => <[sid := session]> (chatSessions (storage w))
                 end;
               messages := messages (storage w);
               currentMessageId := currentMessageId (storage w) |};
          generatorCalls := generatorCalls w |})
    /\ match chatSessions (storage w) !! sid with
       | Some existing => session = existing
       | None => session = {| sessionId := sid;
                              currentPersonaId :=
                                match orUndefined (coercePersonaId v) with
                                | JNumber n => Some n
                                | _ => None
                                end;
                              createdAt := now env |}
       end.
Proof.
  unfold createNewSession, bind, lift, callStore, createChatSession, ret.
  destruct w as [st calls]. destruct st as [ps cs ms next]. cbn.
  destruct (orUndefined_coercePersonaId v) as [-> | (n & _ & _ & ->)]; cbn;
    destruct (cs !! sid) as [existing|]; cbn; eexists; split; reflexivity.
Qed.

Lemma post_sessions_world env sidv v w :
  generatorCalls (snd (create env sidv v w)) = generatorCalls w
  /\ personas (storage (snd (create env sidv v w))) = personas (storage w)
  /\ messages (storage (snd (create env sidv v w))) = messages (storage w)
  /\ currentMessageId (storage (snd (create env sidv v w))) = currentMessageId (storage w)
  /\ forall sid, is_Some (chatSessions (storage w) !! sid) ->
                 is_Some (chatSessions (storage (snd (create env sidv v w))) !! sid).
Proof.
  set (P := fun w' : World =>
              generatorCalls w' = generatorCalls w
              /\ personas (storage w') = personas (storage w)
              /\ messages (storage w') = messages (storage w)
              /\ currentMessageId (storage w') = currentMessageId (storage w)
              /\ forall sid, is_Some (chatSessions (storage w) !! sid) ->
                             is_Some (chatSessions (storage w') !! sid)).
  change (P (snd (create env sidv v w))).
  assert (Hsame : P w) by (unfold P; auto 10).
  assert (Hnew : forall sid,
             P (snd (createNewSession env (JString sid) (coercePersonaId v) w))).
  { intros sid. destruct (createNewSession_world env sid v w) as (session & -> & _).
    unfold P. cbn. repeat split. intros sid' H.
    destruct (chatSessions (storage w) !! sid) eqn:E; [exact H|].
    destruct (decide (sid = sid')) as [->|Hne].
    - rewrite lookup_insert_eq. eauto.
    - now rewrite lookup_insert_ne. }
  unfold post_sessions. rewrite snd_tryCatch. cbv zeta.
  destruct (truthy sidv) eqn:Ht; cbn [negb]; [|apply Hnew].
  unfold bind at 1, readStore at 1.
  destruct sidv as [| |k|s]; try discriminate.
  { exact Hsame. }
  destruct (getChatSessionById s (storage w)) as [existing|] eqn:Hs; [|apply Hnew].
  destruct (coercePersonaId v) as [| |n|t]; try exact Hsame.
  destruct (truthy (JNumber n) && differsFrom (currentPersonaId existing) n);
    [|exact Hsame].
  unfold bind, callStore, updateChatSessionPersona, ret. cbn [storage].
  unfold getChatSessionById in Hs. rewrite Hs.
  destruct (getPersonaById n (storage w)); cbn; [|exact Hsame].
  unfold P. cbn. repeat split. intros sid' H.
  destruct (decide (s = sid')) as [->|Hne].
  - rewrite lookup_insert_eq. eauto.
  - now rewrite lookup_insert_ne.
Qed.

(** The send-message route leaves the world, or appends the user message,
    or appends the user message and the reply; past its checks it calls the
    generator once. *)
Lemma send_world env sid content' w :
  snd (send env sid content' w) = w
  \/ exists um added call,
       is_Some (chatSessions (storage w) !! sid)
       /\ msg_sessionId um = sid
       /\ (added = [um] \/ exists am, msg_sessionId am = sid /\ added = [um; am])
       /\ messages (storage (snd (send env sid content' w))) = messages (storage w) ++ added
       /\ generatorCalls (snd (send env sid content' w)) = generatorCalls w ++ [call].
Proof.
  destruct (acceptableContent content') as [text|] eqn:Hc.
  2:{ left. unfold post_session_messages. rewrite Hc. reflexivity. }
  apply acceptableContent_Some in Hc. destruct Hc as [-> Htext].
  pose proof (send_before_generator validationError generatePersonaResponse
                env sid text w Htext) as E.
  destruct (getChatSessionById sid (storage w)) as [session|] eqn:Hs;
    [|left; now rewrite E].
  destruct (selectedPersona session) as [pid|] eqn:Hp; [|left; now rewrite E].
  destruct (getPersonaById pid (storage w)) as [persona|] eqn:Hpersona;
    [|left; now rewrite E].
  right.
  rewrite (send_past_checks validationError generatePersonaResponse
             env sid text w session pid persona Htext Hs Hp Hpersona).
  cbv zeta. unfold getChatSessionById in Hs.
  exists (userMessage env sid text pid w).
  destruct (generatePersonaResponse persona (conversationHistory (logOf sid w)) text)
    as [reply|e].
  - destruct (Js.allWhiteSpace reply).
    + eexists _, _. cbn. repeat split; eauto.
    + set (am := messageOf (later env)
                   {| ins_sessionId := sid; ins_role := assistant; ins_content := reply;
                      ins_personaId := pid |}
                   (withMessage (userMessage env sid text pid w) (storage w))).
      exists [userMessage env sid text pid w; am]. eexists. cbn.
      split; [eauto|]. split; [reflexivity|].
      split; [right; exists am; split; reflexivity|].
      split; [now rewrite <- app_assoc|reflexivity].
  - eexists _, _. cbn. repeat split; eauto.
Qed.

(** What any request does to the world: the catalog stays, no session
    disappears, the log only grows, by at most two messages of the session
    the request addresses, and only a send-message request calls the
    generator, once. *)
Lemma handle_world env r w :
  personas (storage (snd (route env r w))) = personas (storage w)
  /\ (forall sid, is_Some (chatSessions (storage w) !! sid) ->
                  is_Some (chatSessions (storage (snd (route env r w))) !! sid))
  /\ (exists added,
        messages (storage (snd (route env r w))) = messages (storage w) ++ added
        /\ (length added <= 2)%nat
        /\ forall m, In m added ->
             addressedSession r = Some (msg_sessionId m)
             /\ is_Some (chatSessions (storage w) !! msg_sessionId m))
  /\ match r with
     | PostMessage _ _ =>
         generatorCalls (snd (route env r w)) = generatorCalls w
         \/ exists call, generatorCalls (snd (route env r w)) = generatorCalls w ++ [call]
     | _ => generatorCalls (snd (route env r w)) = generatorCalls w
     end.
Proof.
  assert (Same : forall r w', addressedSession r = addressedSession r ->
            w' = w ->
            personas (storage w') = personas (storage w)
            /\ (forall sid, is_Some (chatSessions (storage w) !! sid) ->
                            is_Some (chatSessions (storage w') !! sid))
            /\ (exists added,
                  messages (storage w') = messages (storage w) ++ added
                  /\ (length added <= 2)%nat
                  /\ forall m, In m added ->
                       addressedSession r = Some (msg_sessionId m)
                       /\ is_Some (chatSessions (storage w) !! msg_sessionId m))
            /\ generatorCalls w' = generatorCalls w).
  { intros r0 w' _ ->. repeat split; auto. exists []. rewrite app_nil_r.
    repeat split; cbn; auto; contradiction. }
  destruct r as [|c|q|i|sidv v|sid v|sid|sid c|sid]; cbn [handle].
  - now apply (Same GetPersonas).
  - now apply (Same (GetPersonasByCategory c)).
  - apply (Same (SearchPersonas q)); [reflexivity|].
    unfold get_personas_search. rewrite snd_tryCatch.
    now destruct (default "" q =? "")%string.
  - apply (Same (GetPersona i)); [reflexivity|].
    unfold get_persona. rewrite snd_tryCatch.
    destruct (Js.parseInt i); [|reflexivity]. unfold bind, readStore.
    now destruct (getPersonaById _ _).
  - destruct (post_sessions_world env sidv v w) as (Hg & Hp & Hm & _ & Hs).
    split; [exact Hp|]. split; [exact Hs|]. split; [|exact Hg].
    exists []. rewrite app_nil_r. repeat split; cbn; auto; contradiction.
  - destruct (change_persona_cases validationError notFoundError env sid v w)
      as [E | (n & persona & session & Hv & Hn & Hp & Hs)].
    + apply (Same (PatchSessionPersona sid v)); [reflexivity|]. now rewrite E.
    + destruct (change_persona_appends_notice validationError notFoundError
                  env sid v n persona session w Hv Hn Hp Hs)
        as (updated & st1 & sysmsg & -> & Hu & -> & ->).
      cbn [snd storage withMessage personas chatSessions messages generatorCalls].
      unfold getChatSessionById in Hs.
      split; [reflexivity|]. split; [|split; [|reflexivity]].
      * intros sid' H. destruct (decide (sid = sid')) as [->|Hne].
        -- rewrite lookup_insert_eq. eauto.
        -- now rewrite lookup_insert_ne.
      * eexists. split; [reflexivity|]. split; [cbn; lia|].
        intros m [<-|[]]. cbn. split; [reflexivity|eauto].
  - apply (Same (GetMessages sid)); [reflexivity|].
    unfold get_session_messages. rewrite snd_tryCatch. unfold bind, readStore.
    now destruct (getChatSessionById sid (storage w)).
  - destruct (send_keeps_catalog_and_sessions validationError generatePersonaResponse
                env sid c w) as [Hp Hc].
    destruct (send_world env sid c w)
      as [E | (um & added & call & Hs & Hum & Hadd & Hm & Hg)].
    + rewrite E. destruct (Same (PostMessage sid c) w eq_refl eq_refl) as (A & B & C & D).
      auto.
    + split; [exact Hp|]. split; [now rewrite Hc|]. split; [|right; eauto].
      exists added. split; [exact Hm|].
      destruct Hadd as [->|(am & Ham & ->)]; (split; [cbn; lia|]).
      * intros m [<-|[]]. cbn. rewrite Hum. auto.
      * intros m [<-|[<-|[]]]; cbn; [rewrite Hum|rewrite Ham]; auto.
  - now apply (Same (DeleteMessages sid)).
Qed.

End Effects.

(** ** What no request does *)

Lemma filter_session_none sid (added : list Message) :
  (forall m, In m added -> msg_sessionId m <> sid) ->
  List.filter (fun m => (msg_sessionId m =? sid)%string) added = [].
Proof.
  intros H. apply filter_none. intros m Hm. apply String.eqb_neq. now apply H.
Qed.

Section RouterInvariants.

Variable validationError notFoundError : exn.
Variable generatePersonaResponse : Persona -> list (Role * string) -> string -> completion string.

Local Abbreviation route := (handle validationError notFoundError generatePersonaResponse).

(** X18: the log of a session is append-only under every request, the
    clear-messages request included: the log after the request is the log
    before it followed by at most two new messages. *)
Theorem log_only_grows env r w sid :
  exists added,
    logOf sid (snd (route env r w)) = logOf sid w ++ added /\ (length added <= 2)%nat.
Proof.
  destruct (handle_world validationError notFoundError generatePersonaResponse env r w)
    as (_ & _ & (added & Hm & Hlen & _) & _).
  exists (List.filter (fun m => (msg_sessionId m =? sid)%string) added).
  unfold logOf, getMessagesBySessionId. rewrite Hm, List.filter_app. split; [reflexivity|].
  pose proof (List.filter_length_le (fun m => (msg_sessionId m =? sid)%string) added). lia.
Qed.

(** X19: a request writes to the log of the session it addresses only: the log
    of every other session is as before. *)
Theorem other_sessions_untouched env r w sid :
  addressedSession r <> Some sid ->
  logOf sid (snd (route env r w)) = logOf sid w.
Proof.
  intros Hr.
  destruct (handle_world validationError notFoundError generatePersonaResponse env r w)
    as (_ & _ & (added & Hm & _ & Hadd) & _).
  unfold logOf, getMessagesBySessionId. rewrite Hm, List.filter_app.
  rewrite (filter_session_none sid added); [apply app_nil_r|].
  intros m Hin Heq. destruct (Hadd m Hin) as [Ha _]. apply Hr. now rewrite Ha, Heq.
Qed.

(** X22: no request changes the persona catalog, and no request removes a
    session: an identifier that names a session before the request names one
    after it. *)
Theorem catalog_and_sessions_persist env r w :
  personas (storage (snd (route env r w))) = personas (storage w)
  /\ forall sid,
       is_Some (getChatSessionById sid (storage w)) ->
       is_Some (getChatSessionById sid (storage (snd (route env r w)))).
Proof.
  destruct (handle_world validationError notFoundError generatePersonaResponse env r w)
    as (Hp & Hs & _). split; [exact Hp|exact Hs].
Qed.

(** X20: every request keeps the messages of the log attached to sessions of the
    store. *)
Theorem messages_keep_their_sessions env r w :
  messagesHaveSessions (storage w) ->
  messagesHaveSessions (storage (snd (route env r w))).
Proof.
  intros H m Hin.
  destruct (handle_world validationError notFoundError generatePersonaResponse env r w)
    as (_ & Hs & (added & Hm & _ & Hadd) & _).
  rewrite Hm in Hin. apply in_app_or in Hin. destruct Hin as [Hin|Hin].
  - apply Hs, H, Hin.
  - apply Hs. now destruct (Hadd m Hin).
Qed.

(** X23: only the send-message route calls the response generator, and it calls
    it at most once per request. *)
Theorem only_send_message_calls_generator env r w :
  match r with
  | PostMessage _ _ =>
      generatorCalls
        (snd (handle validationError notFoundError generatePersonaResponse env r w))
      = generatorCalls w
      \/ exists call,
           generatorCalls
             (snd (handle validationError notFoundError generatePersonaResponse env r w))
           = generatorCalls w ++ [call]
  | _ =>
      generatorCalls
        (snd (handle validationError notFoundError generatePersonaResponse env r w))
      = generatorCalls w
  end.
Proof.
  exact (proj2 (proj2 (proj2
    (handle_world validationError notFoundError generatePersonaResponse env r w)))).
Qed.

(** The routes that read, and the clear-messages route, leave the world as
    it is. *)
Theorem reading_routes_leave_world env r w :
  match r with
  | PostSession _ _ | PatchSessionPersona _ _ | PostMessage _ _ => True
  | _ => snd (route env r w) = w
  end.
Proof.
  destruct r as [|c|q|i|sidv v|sid v|sid|sid c|sid]; cbn [handle]; try exact I;
    try reflexivity.
  - unfold get_personas_search. rewrite snd_tryCatch.
    now destruct (default "" q =? "")%string.
  - unfold get_persona. rewrite snd_tryCatch.
    destruct (Js.parseInt i); [|reflexivity]. unfold bind, readStore.
    now destruct (getPersonaById _ _).
  - unfold get_session_messages. rewrite snd_tryCatch. unfold bind, readStore.
    now destruct (getChatSessionById sid (storage w)).
Qed.

End RouterInvariants.

Lemma other_sessions_untouched_witness :
  addressedSession (PostMessage "s1" (JString "Hello")) <> Some "s2"
  /\ logOf "s2"
       (snd (handle demoValidationError demoNotFoundError echoGenerator demoEnv
               (PostMessage "s1" (JString "Hello")) boundWorld))
     = logOf "s2" boundWorld.
Proof.
  assert (H : addressedSession (PostMessage "s1" (JString "Hello")) <> Some "s2")
    by discriminate.
  split; [exact H|].
  exact (other_sessions_untouched demoValidationError demoNotFoundError echoGenerator
           demoEnv (PostMessage "s1" (JString "Hello")) boundWorld "s2" H).
Defined.

Lemma messagesHaveSessions_greetedWorld : messagesHaveSessions (storage greetedWorld).
Proof. intros m [<-|[]]. cbn. eauto. Qed.

Lemma messages_keep_their_sessions_witness :
  messagesHaveSessions (storage greetedWorld)
  /\ messagesHaveSessions
       (storage (snd (handle demoValidationError demoNotFoundError echoGenerator demoEnv
                        (PostMessage "s1" (JString "How are you?")) greetedWorld))).
Proof.
  split; [exact messagesHaveSessions_greetedWorld|].
  exact (messages_keep_their_sessions demoValidationError demoNotFoundError echoGenerator
           demoEnv (PostMessage "s1" (JString "How are you?")) greetedWorld
           messagesHaveSessions_greetedWorld).
Defined.

(** ** The persona-change and create-session routes *)

Lemma requestedPersona_Some v n :
  requestedPersona v = Some n -> truthy v = true /\ parseIntOfToString v = JNumber n.
Proof.
  destruct v as [| |k|s]; cbn; try discriminate.
  - destruct (k =? 0); [discriminate|]. now intros [= ->].
  - destruct (s =? "")%string; [discriminate|]. unfold parseIntValue. now intros ->.
Qed.

Lemma requestedPersona_None v :
  requestedPersona v = None ->
  forall n, (if truthy v then parseIntOfToString v else JNaN) <> JNumber n.
Proof.
  destruct v as [| |k|s]; cbn; try discriminate.
  - destruct (k =? 0); [discriminate|discriminate].
  - destruct (s =? "")%string; cbn; [discriminate|]. unfold parseIntValue.
    intros ->. discriminate.
Qed.

Section RouteProperties.

Variable validationError notFoundError : exn.
Variable generatePersonaResponse : Persona -> list (Role * string) -> string -> completion string.

Local Abbreviation create := (post_sessions notFoundError).
Local Abbreviation change := (patch_session_persona validationError notFoundError).
Local Abbreviation send := (post_session_messages validationError generatePersonaResponse).

(** X5: for a personaId that is missing, a string or a number, and is read
    within the safe integers, the persona-change route checks, in this order,
    that the request carries a persona id (else 400), that the persona is in
    the catalog (else 404, whether or not the session exists) and that the
    session exists (else 404); a failed check leaves the world untouched.
    Past the checks it answers 200 with the session bound to the persona,
    stores that session, appends one system message naming the persona and
    tagged with its id to the session's log, and does not call the
    generator. *)
Theorem change_persona_checks_in_order env sid v w :
  safePersonaId v ->
  match requestedPersona v with
  | None => change env sid v w = (statusJson 400 (JsonError "Invalid persona ID"), w)
  | Some n =>
      match getPersonaById n (storage w) with
      | None => change env sid v w = (statusJson 404 (JsonError "Persona not found"), w)
      | Some persona =>
          match getChatSessionById sid (storage w) with
          | None => change env sid v w
                    = (statusJson 404 (JsonError "Chat session not found"), w)
          | Some session =>
              exists sysmsg w',
                change env sid v w
                = (json (JsonSession {| sessionId := sessionId session;
                                        currentPersonaId := Some n;
                                        createdAt := createdAt session |}), w')
                /\ getChatSessionById sid (storage w')
                   = Some {| sessionId := sessionId session; currentPersonaId := Some n;
                             createdAt := createdAt session |}
                /\ logOf sid w' = logOf sid w ++ [sysmsg]
                /\ role sysmsg = system
                /\ content sysmsg = "You are now chatting with " +:+ name persona +:+ "."
                /\ personaId sysmsg = n
                /\ generatorCalls w' = generatorCalls w
          end
      end
  end.
Proof.
  intros _. destruct (requestedPersona v) as [n|] eqn:Hr.
  2:{ pose proof (requestedPersona_None v Hr) as Hn. unfold patch_session_persona.
      destruct (if truthy v then parseIntOfToString v else JNaN) as [| |k|s];
        try reflexivity. now elim (Hn k). }
  apply requestedPersona_Some in Hr. destruct Hr as [Hv Hn].
  destruct (getPersonaById n (storage w)) as [persona|] eqn:Hp.
  2:{ unfold patch_session_persona. rewrite Hv, Hn.
      unfold tryCatch, bind, readStore. now rewrite Hp. }
  destruct (getChatSessionById sid (storage w)) as [session|] eqn:Hs.
  2:{ unfold patch_session_persona. rewrite Hv, Hn.
      unfold tryCatch, bind, readStore. now rewrite Hp, Hs. }
  destruct (change_persona_appends_notice validationError notFoundError
              env sid v n persona session w Hv Hn Hp Hs)
    as (updated & st1 & sysmsg & -> & -> & -> & ->).
  eexists _, _. split; [reflexivity|].
  unfold logOf, getChatSessionById. cbn [storage withMessage chatSessions generatorCalls].
  rewrite lookup_insert_eq. split; [reflexivity|].
  rewrite log_withMessage. cbn [msg_sessionId messageOf ins_sessionId].
  rewrite String.eqb_refl. repeat split.
Qed.

(** X6: the persona-change route does not look at the persona the session has:
    selecting the persona that is already selected (its id read within the
    safe integers) leaves the session store as it is and still appends a
    system message to the log. *)
Theorem reselecting_persona_appends_notice env sid v w n persona session :
  safePersonaId v ->
  requestedPersona v = Some n ->
  getPersonaById n (storage w) = Some persona ->
  getChatSessionById sid (storage w) = Some session ->
  currentPersonaId session = Some n ->
  exists sysmsg w',
    change env sid v w = (json (JsonSession session), w')
    /\ chatSessions (storage w') = chatSessions (storage w)
    /\ logOf sid w' = logOf sid w ++ [sysmsg]
    /\ role sysmsg = system.
Proof.
  intros _ Hr Hp Hs Hc. apply requestedPersona_Some in Hr. destruct Hr as [Hv Hn].
  destruct (change_persona_appends_notice validationError notFoundError
              env sid v n persona session w Hv Hn Hp Hs)
    as (updated & st1 & sysmsg & -> & Hu & -> & ->).
  assert (E : updated = session).
  { subst updated. destruct session as [i c t]. cbn in *. now subst c. }
  subst updated. rewrite E. eexists _, _. split; [reflexivity|].
  unfold logOf. cbn [storage withMessage chatSessions].
  split; [apply insert_id; exact Hs|].
  rewrite log_withMessage. cbn [msg_sessionId messageOf ins_sessionId].
  rewrite String.eqb_refl. split; reflexivity.
Qed.

(** X7: a persona id sent as a string that [parseInt] reads as a safe
    integer other than zero is taken as that number, by the persona-change
    route and by the create-session route alike. *)
Theorem numeral_string_is_persona_id env sid sidv s n w :
  Js.parseInt s = Some n ->
  n <> 0 ->
  isSafeInteger n ->
  change env sid (JString s) w = change env sid (JNumber n) w
  /\ create env sidv (JString s) w = create env sidv (JNumber n) w.
Proof.
  intros Hs Hn _.
  assert (Hne : (s =? "")%string = false).
  { destruct (String.eqb_spec s "") as [->|]; [discriminate|reflexivity]. }
  assert (Hn0 : (n =? 0) = false) by now apply Z.eqb_neq.
  split.
  - unfold patch_session_persona. cbn [truthy parseIntOfToString].
    unfold parseIntValue. now rewrite Hne, Hs, Hn0.
  - unfold post_sessions.
    assert (E : coercePersonaId (JString s) = coercePersonaId (JNumber n)).
    { cbn. unfold parseIntValue. now rewrite Hne, Hs. }
    now rewrite E.
Qed.

(** X8: a persona id that is missing, zero, an empty string or a string that
    [parseInt] does not read as a number other than zero counts as no persona
    id for the create-session route. *)
Theorem unusable_persona_id_is_none env sidv v w :
  truthy (coercePersonaId v) = false ->
  create env sidv v w = create env sidv JUndefined w.
Proof.
  intros Hv. unfold post_sessions. cbv zeta.
  assert (Hor : orUndefined (coercePersonaId v) = orUndefined (coercePersonaId JUndefined)).
  { unfold orUndefined. now rewrite Hv. }
  assert (Hnew : forall x, createNewSession env x (coercePersonaId v)
                           = createNewSession env x (coercePersonaId JUndefined)).
  { intros x. unfold createNewSession. now rewrite Hor. }
  rewrite !Hnew. unfold tryCatch.
  destruct (negb (truthy sidv)); [reflexivity|].
  unfold bind at 1 3, readStore.
  destruct sidv as [| |k|s]; try reflexivity.
  destruct (getChatSessionById s (storage w)) as [existing|]; [|reflexivity].
  destruct (coercePersonaId v) as [| |n|t]; try reflexivity.
  now rewrite Hv.
Qed.

(** X9: a session created without an identifier, with a persona id read
    within the safe integers, is stored under the token [nanoid()] returned,
    bound to the usable persona id of the request if the token was free; a
    later create-session call that presents the token and no persona id gets
    that same session back, with 200, and changes nothing. *)
Theorem create_then_resume env env' v w :
  safePersonaId v ->
  nanoid env <> "" ->
  exists session w1,
    create env JUndefined v w = (statusJson 201 (JsonSession session), w1)
    /\ (getChatSessionById (nanoid env) (storage w) = None ->
        session = {| sessionId := nanoid env;
                     currentPersonaId := match orUndefined (coercePersonaId v) with
                                         | JNumber n => Some n
                                         | _ => None
                                         end;
                     createdAt := now env |})
    /\ getChatSessionById (nanoid env) (storage w1) = Some session
    /\ create env' (JString (nanoid env)) JUndefined w1 = (json (JsonSession session), w1).
Proof.
  intros _ Hne.
  destruct (createNewSession_world env (nanoid env) v w) as (session & Hrun & Hsession).
  assert (Hlook : getChatSessionById (nanoid env)
                    {| personas := personas (storage w);
                       chatSessions :=
                         match chatSessions (storage w) !! nanoid env with
                         | Some _ => chatSessions (storage w)
                         | None => <[nanoid env := session]> (chatSessions (storage w))
                         end;
                       messages := messages (storage w);
                       currentMessageId := currentMessageId (storage w) |}
                  = Some session).
  { unfold getChatSessionById. cbn.
    destruct (chatSessions (storage w) !! nanoid env) as [existing|] eqn:E.
    - now rewrite E, Hsession.
    - apply lookup_insert_eq. }
  eexists session, _. split; [|split; [|split]].
  - unfold post_sessions, tryCatch. cbn [truthy negb]. cbv zeta. now rewrite Hrun.
  - unfold getChatSessionById. intros E. now rewrite E in Hsession.
  - exact Hlook.
  - apply create_existing_unchanged; [exact Hlook|exact Hne|now left].
Qed.

(** X10: a failed generation leaves the user message in the log, so the next
    message of the session hands it to the generator as part of the history:
    after a failure on [text], sending [text'] calls the generator with the
    earlier history followed by the user turn [text]. *)
Theorem resend_after_failure_repeats_user_text
    env env' sid text text' w session pid persona e :
  Js.allWhiteSpace text = false ->
  Js.allWhiteSpace text' = false ->
  getChatSessionById sid (storage w) = Some session ->
  selectedPersona session = Some pid ->
  getPersonaById pid (storage w) = Some persona ->
  generatePersonaResponse persona (conversationHistory (logOf sid w)) text = Thrown e ->
  generatorCalls (snd (send env' sid (JString text') (snd (send env sid (JString text) w))))
  = generatorCalls w ++
    [{| call_persona := persona;
        call_history := conversationHistory (logOf sid w);
        call_text := text |};
     {| call_persona := persona;
        call_history := conversationHistory (logOf sid w) ++ [(user, text)];
        call_text := text' |}].
Proof.
  intros Ht Ht' Hs Hp Hpersona Hgen.
  rewrite (send_past_checks validationError generatePersonaResponse
             env sid text w session pid persona Ht Hs Hp Hpersona).
  cbv zeta. rewrite Hgen. cbn [snd].
  set (w1 := {| storage := withMessage (userMessage env sid text pid w) (storage w);
                generatorCalls := generatorCalls w ++
                  [{| call_persona := persona;
                      call_history := conversationHistory (logOf sid w);
                      call_text := text |}] |}).
  assert (Hlog : logOf sid w1 = logOf sid w ++ [userMessage env sid text pid w]).
  { unfold logOf, w1. cbn [storage]. rewrite log_withMessage.
    unfold userMessage. cbn [msg_sessionId messageOf ins_sessionId].
    now rewrite String.eqb_refl. }
  rewrite (send_past_checks validationError generatePersonaResponse
             env' sid text' w1 session pid persona Ht' Hs Hp Hpersona).
  cbv zeta. rewrite Hlog, conversationHistory_app.
  change (conversationHistory [userMessage env sid text pid w]) with [(user, text)].
  destruct (generatePersonaResponse persona
              (conversationHistory (logOf sid w) ++ [(user, text)]) text') as [reply|e'].
  - destruct (Js.allWhiteSpace reply); cbn [snd generatorCalls w1];
      now rewrite <- app_assoc.
  - cbn [snd generatorCalls w1]. now rewrite <- app_assoc.
Qed.

(** X13: both messages of a successful exchange belong to the session of the
    request and carry the persona the session had selected when the request
    came in. *)
Theorem exchange_carries_session_and_persona env sid text w session pid persona reply :
  Js.allWhiteSpace text = false ->
  getChatSessionById sid (storage w) = Some session ->
  selectedPersona session = Some pid ->
  getPersonaById pid (storage w) = Some persona ->
  generatePersonaResponse persona (conversationHistory (logOf sid w)) text = Normal reply ->
  Js.allWhiteSpace reply = false ->
  exists um am,
    fst (send env sid (JString text) w) = statusJson 201 (JsonExchange um am)
    /\ (msg_sessionId um, personaId um) = (sid, pid)
    /\ (msg_sessionId am, personaId am) = (sid, pid)
    /\ currentPersonaId session = Some (personaId am).
Proof.
  intros Ht Hs Hp Hpersona Hgen Hreply.
  rewrite (send_past_checks validationError generatePersonaResponse
             env sid text w session pid persona Ht Hs Hp Hpersona).
  cbv zeta. rewrite Hgen, Hreply. eexists _, _. split; [reflexivity|].
  split; [reflexivity|]. split; [reflexivity|]. cbn.
  unfold selectedPersona in Hp. destruct (currentPersonaId session) as [n|]; [|discriminate].
  destruct (n =? 0); [discriminate|]. congruence.
Qed.

Lemma sendMessageError_status e : In (status (sendMessageError e)) [400; 500; 503].
Proof.
  destruct e as [|m]; cbn; [auto|].
  destruct (m =? "Failed to generate response from OpenAI API")%string; cbn; auto.
Qed.

Lemma sendMessageError_not_content_required e :
  sendMessageError e <> statusJson 400 (JsonError "Message content is required").
Proof.
  destruct e as [|m]; cbn; [discriminate|].
  destruct (m =? "Failed to generate response from OpenAI API")%string; discriminate.
Qed.

(** X14: the send-message route answers "Message content is required" exactly
    when the content is not a string with a character that is not white
    space: a number, a missing field, an empty or a blank string. *)
Theorem content_required_iff env sid v w :
  fst (send env sid v w) = statusJson 400 (JsonError "Message content is required")
  <-> ~ exists text, v = JString text /\ Js.allWhiteSpace text = false.
Proof.
  split.
  - intros H (text & -> & Ht).
    pose proof (send_before_generator validationError generatePersonaResponse
                  env sid text w Ht) as E.
    destruct (getChatSessionById sid (storage w)) as [session|] eqn:Hs;
      [|rewrite E in H; discriminate].
    destruct (selectedPersona session) as [pid|] eqn:Hp; [|rewrite E in H; discriminate].
    destruct (getPersonaById pid (storage w)) as [persona|] eqn:Hpersona;
      [|rewrite E in H; discriminate].
    rewrite (send_past_checks validationError generatePersonaResponse
               env sid text w session pid persona Ht Hs Hp Hpersona) in H.
    cbv zeta in H.
    destruct (generatePersonaResponse persona (conversationHistory (logOf sid w)) text)
      as [reply|e]; [destruct (Js.allWhiteSpace reply)|]; cbn [fst] in H;
      try discriminate; now apply sendMessageError_not_content_required in H.
  - intros H. destruct (acceptableContent v) as [text|] eqn:Hc.
    + apply acceptableContent_Some in Hc. exfalso. apply H. now exists text.
    + unfold post_session_messages. now rewrite Hc.
Qed.

(** X15: the statuses each route can answer with.  The three routes that
    list personas always answer 200, the clear-messages route always 204;
    201 comes from the create-session and send-message routes only and 503
    from the send-message route only. *)
Theorem statuses_of_routes env r w :
  match r with
  | GetPersonas | GetPersonasByCategory _ | SearchPersonas _ =>
      status (fst (handle validationError notFoundError generatePersonaResponse env r w))
      = 200
  | GetPersona _ =>
      In (status (fst (handle validationError notFoundError generatePersonaResponse env r w)))
         [200; 400; 404]
  | PostSession _ _ =>
      In (status (fst (handle validationError notFoundError generatePersonaResponse env r w)))
         [200; 201; 400; 500]
  | PatchSessionPersona _ _ =>
      In (status (fst (handle validationError notFoundError generatePersonaResponse env r w)))
         [200; 400; 404; 500]
  | GetMessages _ =>
      In (status (fst (handle validationError notFoundError generatePersonaResponse env r w)))
         [200; 404]
  | PostMessage _ _ =>
      In (status (fst (handle validationError notFoundError generatePersonaResponse env r w)))
         [201; 400; 404; 500; 503]
  | DeleteMessages _ =>
      status (fst (handle validationError notFoundError generatePersonaResponse env r w))
      = 204
  end.
Proof.
  destruct r as [|c|q|i|sidv v|sid v|sid|sid c|sid]; cbn [handle]; try reflexivity.
  - unfold get_personas_search, tryCatch. now destruct (default "" q =? "")%string.
  - unfold get_persona, tryCatch. destruct (Js.parseInt i); [|cbn; auto].
    unfold bind, readStore. destruct (getPersonaById _ _); cbn; auto.
  - assert (Hnew : forall x,
               In (status (fst (tryCatch
                     (createNewSession env x (coercePersonaId v))
                     (fun error =>
                        match error with
                        | ZodError => statusJson 400 (JsonZodError "Invalid session data")
                        | _ => statusJson 500
                                 (JsonError "Failed to create or get chat session")
                        end) w)))
                  [200; 201; 400; 500]).
    { intros x. unfold tryCatch. destruct x as [| |k|s]; try (cbn; auto; fail).
      destruct (createNewSession_world env s v w) as (session & -> & _). cbn. auto. }
    unfold post_sessions. cbv zeta.
    destruct (truthy sidv) eqn:Ht; cbn [negb]; [|apply Hnew].
    destruct sidv as [| |k|s]; try discriminate.
    { apply (Hnew (JNumber k)). }
    destruct (getChatSessionById s (storage w)) as [existing|] eqn:Hs.
    2:{ specialize (Hnew (JString s)). unfold tryCatch, bind at 1, readStore at 1.
        rewrite Hs. exact Hnew. }
    unfold tryCatch, bind at 1, readStore at 1. rewrite Hs.
    destruct (coercePersonaId v) as [| |n|t]; try (cbn; auto; fail).
    destruct (truthy (JNumber n) && differsFrom (currentPersonaId existing) n);
      [|cbn; auto].
    unfold bind, callStore, updateChatSessionPersona, ret. cbn [storage].
    unfold getChatSessionById in Hs. rewrite Hs.
    destruct (getPersonaById n (storage w)); cbn; [auto|].
    destruct notFoundError; cbn; auto.
  - destruct (truthy v) eqn:Hv.
    2:{ unfold patch_session_persona. rewrite Hv. cbn. auto. }
    destruct (parseIntOfToString v) as [| |n|s] eqn:Hn;
      try (unfold patch_session_persona; rewrite Hv, Hn; cbn; auto; fail).
    destruct (getPersonaById n (storage w)) as [persona|] eqn:Hp.
    2:{ unfold patch_session_persona. rewrite Hv, Hn.
        unfold tryCatch, bind, readStore. rewrite Hp. cbn. auto. }
    destruct (getChatSessionById sid (storage w)) as [session|] eqn:Hs.
    2:{ unfold patch_session_persona. rewrite Hv, Hn.
        unfold tryCatch, bind, readStore. rewrite Hp, Hs. cbn. auto. }
    destruct (change_persona_appends_notice validationError notFoundError
                env sid v n persona session w Hv Hn Hp Hs)
      as (updated & st1 & sysmsg & -> & _). cbn. auto.
  - unfold get_session_messages, tryCatch, bind, readStore.
    destruct (getChatSessionById sid (storage w)); cbn; auto.
  - destruct (acceptableContent c) as [text|] eqn:Hc.
    2:{ unfold post_session_messages. rewrite Hc. cbn. auto. }
    apply acceptableContent_Some in Hc. destruct Hc as [-> Ht].
    pose proof (send_before_generator validationError generatePersonaResponse
                  env sid text w Ht) as E.
    destruct (getChatSessionById sid (storage w)) as [session|] eqn:Hs;
      [|rewrite E; cbn; auto].
    destruct (selectedPersona session) as [pid|] eqn:Hp; [|rewrite E; cbn; auto].
    destruct (getPersonaById pid (storage w)) as [persona|] eqn:Hpersona;
      [|rewrite E; cbn; auto].
    rewrite (send_past_checks validationError generatePersonaResponse
               env sid text w session pid persona Ht Hs Hp Hpersona).
    cbv zeta.
    assert (Herr : forall e, In (status (sendMessageError e)) [201; 400; 404; 500; 503]).
    { intros e. pose proof (sendMessageError_status e) as H. cbn in H |- *. tauto. }
    destruct (generatePersonaResponse persona (conversationHistory (logOf sid w)) text)
      as [reply|e]; [destruct (Js.allWhiteSpace reply)|]; cbn [fst]; try apply Herr.
    cbn. auto.
Qed.

End RouteProperties.

(** ** Persona ids in the path *)

Lemma readDigits_stops radix acc ds c rest :
  Js.digitValue radix c = None ->
  Js.readDigits radix acc (ds +:+ String c rest) = Js.readDigits radix acc ds.
Proof.
  intros Hc. revert acc. induction ds as [|d ds IH]; intros acc.
  - change ("" +:+ String c rest) with (String c rest). cbn [Js.readDigits]. now rewrite Hc.
  - rewrite append_cons. cbn [Js.readDigits].
    destruct (Js.digitValue radix d); [apply IH|reflexivity].
Qed.

Lemma isDecimalDigit_false c : isDecimalDigit c = false -> Js.digitValue 10 c = None.
Proof. unfold isDecimalDigit. now destruct (Js.digitValue 10 c). Qed.

(** [parseInt] reads a decimal numeral and stops at the first character
    that cannot continue it. *)
Lemma parseInt_numeric_prefix digits c rest :
  digits <> "" ->
  allDecimalDigits digits = true ->
  isDecimalDigit c = false ->
  c <> "x"%char -> c <> "X"%char ->
  Js.parseInt (digits +:+ String c rest) = Js.parseInt digits.
Proof.
  intros Hne Hd Hc Hx HX. apply isDecimalDigit_false in Hc.
  destruct digits as [|d ds]; [contradiction|].
  cbn [allDecimalDigits] in Hd. apply andb_true_iff in Hd. destruct Hd as [Hd Hds].
  rewrite append_cons.
  assert (Hrun : Js.readDigits 10 None (String d (ds +:+ String c rest))
                 = Js.readDigits 10 None (String d ds)).
  { rewrite <- append_cons. now apply readDigits_stops. }
  destruct d as [[] [] [] [] [] [] [] []]; try discriminate Hd;
    try exact Hrun.
  (* the numeral starts with 0: the next character decides on the 0x prefix *)
  destruct ds as [|d2 ds].
  - change ("" +:+ String c rest) with (String c rest) in *.
    destruct c as [[] [] [] [] [] [] [] []]; try exact Hrun;
      try (now elim Hx); now elim HX.
  - rewrite append_cons in *. cbn [allDecimalDigits] in Hds.
    apply andb_true_iff in Hds. destruct Hds as [Hd2 _].
    destruct d2 as [[] [] [] [] [] [] [] []]; try discriminate Hd2; exact Hrun.
Qed.

(** X16: a persona is served by the number its path id starts with: decimal
    digits followed by other text name the same persona as the digits alone
    (a letter x after a single 0 apart, which announces a hexadecimal id). *)
Theorem persona_id_read_by_numeric_prefix digits c rest w :
  digits <> "" ->
  allDecimalDigits digits = true ->
  isDecimalDigit c = false ->
  c <> "x"%char -> c <> "X"%char ->
  get_persona (digits +:+ String c rest) w = get_persona digits w.
Proof.
  intros Hne Hd Hc Hx HX. unfold get_persona.
  now rewrite (parseInt_numeric_prefix digits c rest Hne Hd Hc Hx HX).
Qed.

(** X17: for a path id read within the safe integers, the persona route
    answers 400 to an id that does not start with a number, 404 to a number
    that names no persona, and otherwise 200 with a persona of the catalog
    that has that number as its id; it never changes the world. *)
Theorem get_persona_by_path_id i w :
  safePathId i ->
  match Js.parseInt i with
  | None => get_persona i w = (statusJson 400 (JsonError "Invalid persona ID"), w)
  | Some n =>
      (forall p, In p (personas (storage w)) -> id p <> n) /\
      get_persona i w = (statusJson 404 (JsonError "Persona not found"), w)
      \/ exists p, In p (personas (storage w)) /\ id p = n
                   /\ get_persona i w = (json (JsonPersona p), w)
  end.
Proof.
  intros _. unfold get_persona. destruct (Js.parseInt i) as [n|]; [|reflexivity].
  unfold tryCatch, bind, readStore, getPersonaById.
  destruct (List.find (fun p => id p =? n) (personas (storage w))) as [p|] eqn:E.
  - right. exists p. apply List.find_some in E. destruct E as [Hin Hid].
    apply Z.eqb_eq in Hid. auto.
  - left. split; [|reflexivity]. intros p Hin Hid.
    pose proof (List.find_none _ _ E p Hin) as H. cbn in H. apply Z.eqb_neq in H. auto.
Qed.

Lemma persona_id_read_by_numeric_prefix_witness :
  "1" <> "" /\ allDecimalDigits "1" = true /\ isDecimalDigit "a" = false
  /\ get_persona "1abc" emptyWorld = get_persona "1" emptyWorld
  /\ get_persona "1abc" emptyWorld = (json (JsonPersona curie), emptyWorld).
Proof.
  assert (Hne : "1" <> "") by discriminate.
  assert (Hx : "a"%char <> "x"%char) by discriminate.
  assert (HX : "a"%char <> "X"%char) by discriminate.
  split; [exact Hne|]. split; [reflexivity|]. split; [reflexivity|].
  split; [|reflexivity].
  exact (persona_id_read_by_numeric_prefix "1" "a" "bc" emptyWorld Hne eq_refl eq_refl Hx HX).
Defined.

(** ** The further properties on the worlds above *)

Lemma reselecting_persona_appends_notice_witness :
  safePersonaId (JNumber 1)
  /\ requestedPersona (JNumber 1) = Some 1
  /\ getPersonaById 1 (storage greetedWorld) = Some curie
  /\ getChatSessionById "s1" (storage greetedWorld) = Some curieSession
  /\ currentPersonaId curieSession = Some 1
  /\ exists sysmsg w',
       patch_session_persona demoValidationError demoNotFoundError demoEnv "s1" (JNumber 1)
         greetedWorld = (json (JsonSession curieSession), w')
       /\ chatSessions (storage w') = chatSessions (storage greetedWorld)
       /\ logOf "s1" w' = logOf "s1" greetedWorld ++ [sysmsg]
       /\ role sysmsg = system.
Proof.
  assert (Hsafe : safePersonaId (JNumber 1)) by (cbv; discriminate).
  split; [exact Hsafe|]. repeat (split; [reflexivity|]).
  exact (reselecting_persona_appends_notice demoValidationError demoNotFoundError demoEnv
           "s1" (JNumber 1) greetedWorld 1 curie curieSession
           Hsafe eq_refl eq_refl eq_refl eq_refl).
Defined.

Lemma numeral_string_is_persona_id_witness :
  Js.parseInt "2" = Some 2 /\ 2 <> 0 /\ isSafeInteger 2
  /\ patch_session_persona demoValidationError demoNotFoundError demoEnv "s1" (JString "2")
       boundWorld
     = patch_session_persona demoValidationError demoNotFoundError demoEnv "s1" (JNumber 2)
         boundWorld
  /\ post_sessions demoNotFoundError demoEnv (JString "s1") (JString "2") boundWorld
     = post_sessions demoNotFoundError demoEnv (JString "s1") (JNumber 2) boundWorld.
Proof.
  assert (Hn : 2 <> 0) by lia.
  assert (Hsafe : isSafeInteger 2) by (cbv; discriminate).
  split; [reflexivity|]. split; [exact Hn|]. split; [exact Hsafe|].
  exact (numeral_string_is_persona_id demoValidationError demoNotFoundError demoEnv
           "s1" (JString "s1") "2" 2 boundWorld eq_refl Hn Hsafe).
Defined.

Lemma unusable_persona_id_is_none_witness :
  truthy (coercePersonaId (JString "none")) = false
  /\ post_sessions demoNotFoundError demoEnv JUndefined (JString "none") emptyWorld
     = post_sessions demoNotFoundError demoEnv JUndefined JUndefined emptyWorld.
Proof.
  split; [reflexivity|].
  exact (unusable_persona_id_is_none demoNotFoundError demoEnv JUndefined (JString "none")
           emptyWorld eq_refl).
Defined.

Lemma create_then_resume_witness :
  safePersonaId (JNumber 1)
  /\ nanoid demoEnv <> ""
  /\ exists session w1,
       post_sessions demoNotFoundError demoEnv JUndefined (JNumber 1) emptyWorld
       = (statusJson 201 (JsonSession session), w1)
       /\ (getChatSessionById (nanoid demoEnv) (storage emptyWorld) = None ->
           session = {| sessionId := nanoid demoEnv;
                        currentPersonaId :=
                          match orUndefined (coercePersonaId (JNumber 1)) with
                          | JNumber n => Some n
                          | _ => None
                          end;
                        createdAt := now demoEnv |})
       /\ getChatSessionById (nanoid demoEnv) (storage w1) = Some session
       /\ post_sessions demoNotFoundError demoEnv (JString (nanoid demoEnv)) JUndefined w1
          = (json (JsonSession session), w1).
Proof.
  assert (Hne : nanoid demoEnv <> "") by discriminate.
  assert (Hsafe : safePersonaId (JNumber 1)) by (cbv; discriminate).
  split; [exact Hsafe|]. split; [exact Hne|].
  exact (create_then_resume demoNotFoundError demoEnv demoEnv (JNumber 1) emptyWorld
           Hsafe Hne).
Defined.

Lemma resend_after_failure_repeats_user_text_witness :
  Js.allWhiteSpace "Hello" = false
  /\ Js.allWhiteSpace "Hello again" = false
  /\ getChatSessionById "s1" (storage boundWorld) = Some curieSession
  /\ selectedPersona curieSession = Some 1
  /\ getPersonaById 1 (storage boundWorld) = Some curie
  /\ generatorCalls
       (snd (post_session_messages demoValidationError failingGenerator demoEnv "s1"
               (JString "Hello again")
               (snd (post_session_messages demoValidationError failingGenerator demoEnv "s1"
                       (JString "Hello") boundWorld))))
     = generatorCalls boundWorld ++
       [{| call_persona := curie;
           call_history := conversationHistory (logOf "s1" boundWorld);
           call_text := "Hello" |};
        {| call_persona := curie;
           call_history := conversationHistory (logOf "s1" boundWorld) ++ [(user, "Hello")];
           call_text := "Hello again" |}].
Proof.
  repeat (split; [reflexivity|]).
  exact (resend_after_failure_repeats_user_text demoValidationError failingGenerator
           demoEnv demoEnv "s1" "Hello" "Hello again" boundWorld curieSession 1 curie
           generatorFailure eq_refl eq_refl eq_refl eq_refl eq_refl eq_refl).
Defined.

Lemma exchange_carries_session_and_persona_witness :
  Js.allWhiteSpace "Hello" = false
  /\ getChatSessionById "s1" (storage boundWorld) = Some curieSession
  /\ selectedPersona curieSession = Some 1
  /\ getPersonaById 1 (storage boundWorld) = Some curie
  /\ exists um am,
       fst (post_session_messages demoValidationError echoGenerator demoEnv "s1"
              (JString "Hello") boundWorld) = statusJson 201 (JsonExchange um am)
       /\ (msg_sessionId um, personaId um) = ("s1", 1)
       /\ (msg_sessionId am, personaId am) = ("s1", 1)
       /\ currentPersonaId curieSession = Some (personaId am).
Proof.
  repeat (split; [reflexivity|]).
  exact (exchange_carries_session_and_persona demoValidationError echoGenerator demoEnv
           "s1" "Hello" boundWorld curieSession 1 curie "Marie Curie heard: Hello"
           eq_refl eq_refl eq_refl eq_refl eq_refl eq_refl).
Defined.

Lemma personaRefsValid_boundWorld : personaRefsValid (storage boundWorld).
Proof.
  intros sid session n Hs Hn. cbn in Hs.
  apply lookup_singleton_Some in Hs. destruct Hs as [_ <-].
  injection Hn as <-. cbn. eauto.
Qed.

Lemma handle_keeps_personaRefsValid_witness :
  personaRefsValid (storage boundWorld)
  /\ bindsKnownPersona (JNumber 2) (storage boundWorld)
  /\ personaRefsValid
       (storage (snd (handle demoValidationError demoNotFoundError echoGenerator demoEnv
                        (PostSession JUndefined (JNumber 2)) boundWorld))).
Proof.
  assert (Hb : bindsKnownPersona (JNumber 2) (storage boundWorld)) by (cbn; eauto).
  split; [exact personaRefsValid_boundWorld|]. split; [exact Hb|].
  exact (handle_keeps_personaRefsValid demoValidationError demoNotFoundError echoGenerator
           demoEnv (PostSession JUndefined (JNumber 2)) boundWorld
           personaRefsValid_boundWorld Hb).
Defined.

(** ** A message after a persona change *)

Section AfterPersonaChange.

Variable validationError notFoundError : exn.
Variable generatePersonaResponse : Persona -> list (Role * string) -> string -> completion string.

Local Abbreviation change := (patch_session_persona validationError notFoundError).
Local Abbreviation send := (post_session_messages validationError generatePersonaResponse).

Lemma world_after_persona_change env sid v w n persona session :
  requestedPersona v = Some n ->
  getPersonaById n (storage w) = Some persona ->
  getChatSessionById sid (storage w) = Some session ->
  exists sysmsg,
    role sysmsg = system
    /\ getChatSessionById sid (storage (snd (change env sid v w)))
       = Some {| sessionId := sessionId session; currentPersonaId := Some n;
                 createdAt := createdAt session |}
    /\ getPersonaById n (storage (snd (change env sid v w))) = Some persona
    /\ logOf sid (snd (change env sid v w)) = logOf sid w ++ [sysmsg]
    /\ generatorCalls (snd (change env sid v w)) = generatorCalls w
    /\ fst (change env sid v w)
       = json (JsonSession {| sessionId := sessionId session; currentPersonaId := Some n;
                              createdAt := createdAt session |}).
Proof.
  intros Hr Hp Hs. apply requestedPersona_Some in Hr. destruct Hr as [Hv Hn].
  destruct (change_persona_appends_notice validationError notFoundError
              env sid v n persona session w Hv Hn Hp Hs)
    as (updated & st1 & sysmsg & -> & -> & -> & ->).
  eexists. split; [|split; [|split; [|split; [|split]]]]; cycle 1.
  - unfold getChatSessionById. cbn. apply lookup_insert_eq.
  - exact Hp.
  - unfold logOf. cbn [snd storage]. rewrite log_withMessage.
    cbn [msg_sessionId messageOf ins_sessionId]. now rewrite String.eqb_refl.
  - reflexivity.
  - reflexivity.
  - reflexivity.
Qed.

(** X11: after a persona change (the persona id read within the safe
    integers), the next message of the session goes to the generator with the
    new persona and with the conversation held so far: the system message of
    the change is not part of the history. *)
Theorem send_after_persona_change env env' sid v text w n persona session :
  safePersonaId v ->
  requestedPersona v = Some n ->
  n <> 0 ->
  getPersonaById n (storage w) = Some persona ->
  getChatSessionById sid (storage w) = Some session ->
  Js.allWhiteSpace text = false ->
  generatorCalls (snd (send env' sid (JString text) (snd (change env sid v w))))
  = generatorCalls w ++
    [{| call_persona := persona;
        call_history := conversationHistory (logOf sid w);
        call_text := text |}].
Proof.
  intros _ Hr Hn0 Hp Hs Ht.
  destruct (world_after_persona_change env sid v w n persona session Hr Hp Hs)
    as (sysmsg & Hrole & Hs' & Hp' & Hlog & Hcalls & _).
  assert (Hsel : selectedPersona {| sessionId := sessionId session;
                                    currentPersonaId := Some n;
                                    createdAt := createdAt session |} = Some n).
  { unfold selectedPersona. cbn. now destruct (Z.eqb_spec n 0). }
  rewrite (send_past_checks validationError generatePersonaResponse env' sid text
             (snd (change env sid v w)) _ n persona Ht Hs' Hsel Hp').
  cbv zeta. rewrite Hlog, conversationHistory_app, Hcalls.
  assert (Hsys : conversationHistory [sysmsg] = []).
  { unfold conversationHistory. cbn. now rewrite Hrole. }
  rewrite Hsys, app_nil_r.
  destruct (generatePersonaResponse persona (conversationHistory (logOf sid w)) text)
    as [reply|e]; [|reflexivity].
  now destruct (Js.allWhiteSpace reply).
Qed.

(** X12: a persona with the id 0 can be selected by sending its id as a string,
    which the persona-change route accepts with 200; the send-message route
    then takes the session for one without persona and answers 400 to every
    message, leaving the world as it is. *)
Theorem persona_zero_is_selected_but_not_served env env' sid s text w persona session :
  s <> "" ->
  Js.parseInt s = Some 0 ->
  getPersonaById 0 (storage w) = Some persona ->
  getChatSessionById sid (storage w) = Some session ->
  Js.allWhiteSpace text = false ->
  fst (change env sid (JString s) w)
  = json (JsonSession {| sessionId := sessionId session; currentPersonaId := Some 0;
                         createdAt := createdAt session |})
  /\ send env' sid (JString text) (snd (change env sid (JString s) w))
     = (statusJson 400 (JsonError "No persona selected for this chat session"),
        snd (change env sid (JString s) w)).
Proof.
  intros Hne Hparse Hp Hs Ht.
  assert (Hr : requestedPersona (JString s) = Some 0).
  { cbn. now destruct (String.eqb_spec s ""). }
  destruct (world_after_persona_change env sid (JString s) w 0 persona session Hr Hp Hs)
    as (sysmsg & _ & Hs' & _ & _ & _ & Hfst).
  split; [exact Hfst|].
  pose proof (send_before_generator validationError generatePersonaResponse env' sid text
                (snd (change env sid (JString s) w)) Ht) as E.
  rewrite Hs' in E. exact E.
Qed.

End AfterPersonaChange.

Lemma send_after_persona_change_witness :
  safePersonaId (JNumber 2)
  /\ requestedPersona (JNumber 2) = Some 2 /\ 2 <> 0
  /\ getPersonaById 2 (storage greetedWorld) = Some caesar
  /\ getChatSessionById "s1" (storage greetedWorld) = Some curieSession
  /\ Js.allWhiteSpace "Ave" = false
  /\ generatorCalls
       (snd (post_session_messages demoValidationError echoGenerator demoEnv "s1"
               (JString "Ave")
               (snd (patch_session_persona demoValidationError demoNotFoundError demoEnv
                       "s1" (JNumber 2) greetedWorld))))
     = generatorCalls greetedWorld ++
       [{| call_persona := caesar;
           call_history := conversationHistory (logOf "s1" greetedWorld);
           call_text := "Ave" |}].
Proof.
  assert (Hn : 2 <> 0) by lia.
  assert (Hsafe : safePersonaId (JNumber 2)) by (cbv; discriminate).
  split; [exact Hsafe|].
  split; [reflexivity|]. split; [exact Hn|]. repeat (split; [reflexivity|]).
  exact (send_after_persona_change demoValidationError demoNotFoundError echoGenerator
           demoEnv demoEnv "s1" (JNumber 2) "Ave" greetedWorld 2 caesar curieSession
           Hsafe eq_refl Hn eq_refl eq_refl eq_refl).
Defined.

Lemma persona_zero_is_selected_but_not_served_witness :
  "0" <> "" /\ Js.parseInt "0" = Some 0
  /\ getPersonaById 0 (storage zeroWorld) = Some anonymous
  /\ Js.allWhiteSpace "Hello" = false
  /\ fst (patch_session_persona demoValidationError demoNotFoundError demoEnv "s1"
            (JString "0") zeroWorld)
     = json (JsonSession {| sessionId := "s1"; currentPersonaId := Some 0;
                            createdAt := 900 |})
  /\ post_session_messages demoValidationError echoGenerator demoEnv "s1" (JString "Hello")
       (snd (patch_session_persona demoValidationError demoNotFoundError demoEnv "s1"
               (JString "0") zeroWorld))
     = (statusJson 400 (JsonError "No persona selected for this chat session"),
        snd (patch_session_persona demoValidationError demoNotFoundError demoEnv "s1"
               (JString "0") zeroWorld)).
Proof.
  assert (Hne : "0" <> "") by discriminate.
  split; [exact Hne|]. do 3 (split; [reflexivity|]).
  exact (persona_zero_is_selected_but_not_served demoValidationError demoNotFoundError
           echoGenerator demoEnv demoEnv "s1" "0" "Hello" zeroWorld anonymous
           {| sessionId := "s1"; currentPersonaId := None; createdAt := 900 |}
           Hne eq_refl eq_refl eq_refl eq_refl).
Defined.

Lemma change_persona_checks_in_order_witness :
  safePersonaId (JString "2")
  /\ exists sysmsg w',
       patch_session_persona demoValidationError demoNotFoundError demoEnv "s1" (JString "2")
         greetedWorld
       = (json (JsonSession {| sessionId := sessionId curieSession;
                               currentPersonaId := Some 2;
                               createdAt := createdAt curieSession |}), w')
       /\ getChatSessionById "s1" (storage w')
          = Some {| sessionId := sessionId curieSession; currentPersonaId := Some 2;
                    createdAt := createdAt curieSession |}
       /\ logOf "s1" w' = logOf "s1" greetedWorld ++ [sysmsg]
       /\ role sysmsg = system
       /\ content sysmsg = "You are now chatting with " +:+ name caesar +:+ "."
       /\ personaId sysmsg = 2
       /\ generatorCalls w' = generatorCalls greetedWorld.
Proof.
  assert (Hsafe : safePersonaId (JString "2")) by (cbv; discriminate).
  split; [exact Hsafe|].
  exact (change_persona_checks_in_order demoValidationError demoNotFoundError demoEnv
           "s1" (JString "2") greetedWorld Hsafe).
Defined.

Lemma get_persona_by_path_id_witness :
  safePathId "2"
  /\ ((forall p, In p (personas (storage emptyWorld)) -> id p <> 2) /\
      get_persona "2" emptyWorld = (statusJson 404 (JsonError "Persona not found"), emptyWorld)
      \/ exists p, In p (personas (storage emptyWorld)) /\ id p = 2
                   /\ get_persona "2" emptyWorld = (json (JsonPersona p), emptyWorld)).
Proof.
  assert (Hsafe : safePathId "2") by (cbv; discriminate).
  split; [exact Hsafe|].
  exact (get_persona_by_path_id "2" emptyWorld Hsafe).
Defined.
